(** * Stock rating bot: the factor-scoring engine of [streamlit_app.py]

    A shallow embedding of the scoring code (helpers, instrument detection,
    reference tables, [score_stock], [reco]), of the data fetch and of the
    page that calls them, with the properties the specification states
    about the scoring code and further properties read off the code.

    Numbers.  The program computes with Python floats.  They are modelled as
    [pyfloat]: the not-a-number value [NaN], or a finite value carried as an
    exact rational of [Q].  Rounding error and infinities are outside the
    model; equalities between finite values are stated with [==] on [Q].
    A value read from a dictionary with [m.get(key)] is an [option pyfloat]:
    [None] is Python's [None].

    Where a statement is about what rounding does, the sum of renormalised
    weights, the weights are taken as the binary64 floats of the program
    instead (module [Float64], on the primitive floats of Rocq). *)

From Stdlib Require Import QArith Qabs Qround Qminmax Lqa Lia ZArith List String Ascii Bool.
From Stdlib Require PrimFloat.
Import ListNotations.

Local Open Scope Q_scope.

(* ===================================================================== *)
(** ** Python values and operators *)
(* ===================================================================== *)

Module Py.

Inductive pyfloat : Type :=
| NaN : pyfloat
| Fin : Q -> pyfloat.

(** [np.isnan(x)] *)
Definition isnan (x : pyfloat) : bool :=
  match x with NaN => true | Fin _ => false end.

(** Float arithmetic: any not-a-number operand makes the result
    not-a-number. *)
Definition lift2 (op : Q -> Q -> Q) (a b : pyfloat) : pyfloat :=
  match a, b with
  | Fin x, Fin y => Fin (op x y)
  | _, _ => NaN
  end.

Definition fadd : pyfloat -> pyfloat -> pyfloat := lift2 Qplus.
Definition fsub : pyfloat -> pyfloat -> pyfloat := lift2 Qminus.
Definition fmul : pyfloat -> pyfloat -> pyfloat := lift2 Qmult.
(** [a / b]; every division of the program has a divisor that was tested
    non-zero or is a non-zero literal. *)
Definition fdiv : pyfloat -> pyfloat -> pyfloat := lift2 Qdiv.

(** [abs(x)] *)
Definition fabs (a : pyfloat) : pyfloat :=
  match a with NaN => NaN | Fin x => Fin (Qabs x) end.

(** [x < y] on finite values, as a boolean. *)
Definition Qltb (x y : Q) : bool :=
  match x ?= y with Lt => true | _ => false end.

(** [x >= y] on floats: every comparison with not-a-number is false. *)
Definition fge (a b : pyfloat) : bool :=
  match a, b with
  | Fin x, Fin y => Qle_bool y x
  | _, _ => false
  end.

(** [min(a, b)] and [max(a, b)] of two finite values: the first argument
    is kept unless the second is strictly smaller (resp. greater). *)
Definition pymin (a b : Q) : Q := if Qltb b a then b else a.
Definition pymax (a b : Q) : Q := if Qltb a b then b else a.

(** Truth value of [m.get(key)]: [None] and zero are false, everything
    else (not-a-number included) is true. *)
Definition truthy (v : option pyfloat) : bool :=
  match v with
  | None => false
  | Some NaN => true
  | Some (Fin q) => negb (Qeq_bool q 0)
  end.

(** Truth value of a number of the reference tables. *)
Definition qtruthy (q : Q) : bool := negb (Qeq_bool q 0).

(** [v or d] *)
Definition or_else (v : option pyfloat) (d : pyfloat) : pyfloat :=
  match v with
  | Some x => if truthy v then x else d
  | None => d
  end.

(** [sum(xs)] of finite values: a left fold from [0]. *)
Definition qsum (xs : list Q) : Q := fold_left Qplus xs 0.

(** The finite members of a list of floats, in order. *)
Fixpoint finite_part (xs : list pyfloat) : list Q :=
  match xs with
  | [] => []
  | NaN :: r => finite_part r
  | Fin q :: r => q :: finite_part r
  end.

(** [np.nanmean(xs)]: the mean of the members that are not not-a-number;
    not-a-number when there is none. *)
Definition nanmean (xs : list pyfloat) : pyfloat :=
  match finite_part xs with
  | [] => NaN
  | q :: r => Fin (qsum (q :: r) / inject_Z (Z.of_nat (List.length (q :: r))))
  end.

(** Rounding to the nearest integer, ties to the even one. *)
Definition round_half_even (q : Q) : Z :=
  let f := Qfloor q in
  match ((q - inject_Z f) ?= (1 # 2))%Q with
  | Lt => f
  | Gt => (f + 1)%Z
  | Eq => if Z.even f then f else (f + 1)%Z
  end.

(** [round(q, 2)] *)
Definition round2 (q : Q) : Q := inject_Z (round_half_even (q * 100)) / 100.

End Py.
Import Py.

(* ===================================================================== *)
(** ** Helpers *)
(* ===================================================================== *)

(** [zclip(x, lo, hi)]: not-a-number for [None] and not-a-number,
    otherwise [max(lo, min(hi, float(x)))]. *)
Definition zclip_range (x : option pyfloat) (lo hi : Q) : pyfloat :=
  match x with
  | None => NaN
  | Some NaN => NaN
  | Some (Fin q) => Fin (pymax lo (pymin hi q))
  end.

(** [zclip(x)] with the default bounds [lo=0.0], [hi=10.0]. *)
Definition zclip (x : option pyfloat) : pyfloat := zclip_range x 0 10.

(** A dictionary with numeric values, in insertion order.  Every weight
    dictionary of the program holds numbers only, so the [v is not None]
    filter of [renorm_weights] keeps every value. *)
Definition dict (K : Type) : Type := list (K * Q).

(** [sum(v for v in d.values())] *)
Definition sum_values {K : Type} (d : dict K) : Q := qsum (map snd d).

(** [renorm_weights(d)], in exact arithmetic.  What the rounding of the
    program's floats does to the weights is stated on
    [Float64.renorm_weights_float]. *)
Definition renorm_weights {K : Type} (d : dict K) : dict K :=
  let s := sum_values d in
  map (fun kv => (fst kv, if Qltb 0 s then snd kv / s else 0)) d.

(** The dictionary comprehension of [score_stock] that feeds
    [renorm_weights], [{k: (W[k] if available(k) else 0) for k in W}]: the
    nominal weight of an available key, [0] for the others.  Keys are
    distinct, so [W[k]] is the value paired with [k]. *)
Definition zero_unavailable {K : Type} (nominal : dict K) (available : K -> bool) : dict K :=
  map (fun kv => (fst kv, if available (fst kv) then snd kv else 0)) nominal.

(** [d[k]].  Every subscript of the program uses a key of the dictionary it
    reads (see [derived_weights_has_key]); Python would raise [KeyError] on
    another key, which is never reached, and the model reads [0] there. *)
Fixpoint dict_get {K : Type} (eqb : K -> K -> bool) (d : dict K) (k : K) : option Q :=
  match d with
  | [] => None
  | (k', v) :: r => if eqb k' k then Some v else dict_get eqb r k
  end.

Definition item {K : Type} (eqb : K -> K -> bool) (d : dict K) (k : K) : Q :=
  match dict_get eqb d k with Some v => v | None => 0 end.

(** Iterating a dictionary yields its keys in insertion order. *)
Definition keys {K : Type} (d : dict K) : list K := map fst d.

(* ===================================================================== *)
(** ** Detection *)
(* ===================================================================== *)

(** Codes are modelled as ASCII strings. *)
Module Str.

Local Open Scope nat_scope.

(** The ASCII characters for which [str.isspace] holds: tab, line feed,
    vertical tab, form feed, carriage return, the four separators
    [0x1c..0x1f] and the space. *)
Definition is_space (c : ascii) : bool :=
  let n := nat_of_ascii c in
  ((9 <=? n) && (n <=? 13)) || ((28 <=? n) && (n <=? 32)).

Fixpoint lstrip (s : string) : string :=
  match s with
  | EmptyString => EmptyString
  | String c r => if is_space c then lstrip r else s
  end.

Definition rev (s : string) : string :=
  string_of_list_ascii (List.rev (list_ascii_of_string s)).

(** [s.strip()] *)
Definition strip (s : string) : string := rev (lstrip (rev (lstrip s))).

Definition upper_char (c : ascii) : ascii :=
  let n := nat_of_ascii c in
  if (97 <=? n) && (n <=? 122) then ascii_of_nat (n - 32) else c.

(** [s.upper()] *)
Fixpoint upper (s : string) : string :=
  match s with
  | EmptyString => EmptyString
  | String c r => String (upper_char c) (upper r)
  end.

(** [s.startswith(p)] *)
Definition startswith (s p : string) : bool := String.prefix p s.

(** [s.endswith(p)] *)
Definition endswith (s p : string) : bool := String.prefix (rev p) (rev s).

End Str.

Inductive country : Type := US | India.

Inductive itype : Type := Stock | ETF | MutualFund.

(** The strings the program uses for the instrument types. *)
Definition itype_name (t : itype) : string :=
  match t with
  | Stock => "Stock"
  | ETF => "ETF"
  | MutualFund => "Mutual Fund"
  end.

Definition country_name (c : country) : string :=
  match c with US => "US" | India => "India" end.

(** [detect_country_and_type(code_raw)] *)
Definition detect_country_and_type (code_raw : string) : country * itype * string :=
  let s := Str.upper (Str.strip code_raw) in
  if Str.startswith s "INF" || ((String.length s =? 5)%nat && Str.endswith s "X") then
    (if Str.startswith s "INF" then India else US, MutualFund, s)
  else if Str.startswith s "NSE:" || Str.startswith s "BSE:" then
    (India, Stock, s)
  else if Str.endswith s "BEES" then
    (India, ETF, s)
  else
    (US, Stock, s).

(** The [UNIVERSE] table of the program: sample codes per market and
    instrument type. *)
Definition UNIVERSE (c : country) (t : itype) : list string :=
  match c, t with
  | US, Stock => ["AAPL"; "MSFT"; "GOOGL"; "AMZN"; "NVDA"; "META"]
  | India, Stock => ["NSE:INFY"; "NSE:TCS"; "NSE:RELIANCE"; "NSE:HDFCBANK"; "NSE:ITC"; "NSE:LTIM"]
  | US, ETF => ["VOO"; "VTI"; "QQQ"; "IWM"]
  | India, ETF => ["NSE:NIFTYBEES"; "NSE:BANKBEES"; "NSE:JUNIORBEES"]
  | US, MutualFund => ["VFIAX"; "FXAIX"; "SWPPX"]
  | India, MutualFund => ["INF109K01ZB3"]
  end%string.

(* ===================================================================== *)
(** ** Data *)
(* ===================================================================== *)

Record medians : Type := mk_medians {
  PE : Q;
  EVEBITDA : Q;
  PS : Q;
  PFCF : Q
}.

(** [SECTOR_MEDIANS[country]]: sector name to medians. *)
Definition SECTOR_MEDIANS (c : country) : list (string * medians) :=
  match c with
  | US =>
      [ ("Technology"%string, mk_medians 28 19 6 25);
        ("Default"%string, mk_medians 18 12 2 18) ]
  | India =>
      [ ("Technology"%string, mk_medians 30 20 7 28);
        ("Default"%string, mk_medians 22 14 3 22) ]
  end.

(** [table.get(key, default)] *)
Fixpoint table_get {V : Type} (t : list (string * V)) (key : string) (default : V) : V :=
  match t with
  | [] => default
  | (k, v) :: r => if String.eqb k key then v else table_get r key default
  end.

(** [SECTOR_MEDIANS[country]["Default"]]; the key is present for both
    markets. *)
Definition default_medians (c : country) : medians :=
  table_get (SECTOR_MEDIANS c) "Default" (mk_medians 0 0 0 0).

(** The raw metric bundle [m], as [score_stock] reads it: each field is
    what [m.get(key)] returns. *)
Record metrics : Type := mk_metrics {
  sector : option string;
  beta : option pyfloat;
  pe : option pyfloat;
  pb : option pyfloat;
  ps : option pyfloat;
  pfcf : option pyfloat;
  div_yield : option pyfloat;
  r_1y : option pyfloat;
  r_3y : option pyfloat
}.

(* ===================================================================== *)
(** ** Factor models and weights *)
(* ===================================================================== *)

Declare Scope float_scope.
Delimit Scope float_scope with F.
Bind Scope float_scope with pyfloat.
Infix "+" := fadd : float_scope.
Infix "-" := fsub : float_scope.
Infix "*" := fmul : float_scope.
Infix "/" := fdiv : float_scope.

(** The keys of the stock weight table and of the [scores] and [exps]
    dictionaries. *)
Inductive factor : Type :=
| pe_vs_sector | financial_health | valuation | growth
| management | moat | risk | dividend.

Definition factor_eqb (a b : factor) : bool :=
  match a, b with
  | pe_vs_sector, pe_vs_sector | financial_health, financial_health
  | valuation, valuation | growth, growth | management, management
  | moat, moat | risk, risk | dividend, dividend => true
  | _, _ => false
  end.

Definition STOCK_W : dict factor :=
  renorm_weights
    [ (pe_vs_sector, 0.125); (financial_health, 0.125); (valuation, 0.125);
      (growth, 0.125); (management, 0.125); (moat, 0.125); (risk, 0.125);
      (dividend, 0.125) ].

Section Factors.

Variable med : medians.
Variable m : metrics.

(** [zclip(5 + 5*((med["PE"]/pe)-1)) if (pe and med["PE"]) else np.nan] *)
Definition score_pe_vs_sector : pyfloat :=
  match pe m with
  | Some x =>
      if truthy (pe m) && qtruthy (PE med)
      then zclip (Some (Fin 5 + Fin 5 * ((Fin (PE med) / x) - Fin 1))%F)
      else NaN
  | None => NaN
  end.

(** [zclip(10 - abs((pb or 3)-3)*2) if pb else np.nan] *)
Definition score_financial_health : pyfloat :=
  if truthy (pb m)
  then zclip (Some (Fin 10 - fabs (or_else (pb m) (Fin 3) - Fin 3) * Fin 2)%F)
  else NaN.

(** [if actual and median: comp.append(5+5*(median/actual-1))] *)
Definition comp_append (median : Q) (actual : option pyfloat) (comp : list pyfloat) : list pyfloat :=
  match actual with
  | Some x =>
      if truthy actual && qtruthy median
      then comp ++ [(Fin 5 + Fin 5 * (Fin median / x - Fin 1))%F]
      else comp
  | None => comp
  end.

(** The list [comp] after the three conditional appends. *)
Definition valuation_comp : list pyfloat :=
  comp_append (PFCF med) (pfcf m)
    (comp_append (PS med) (ps m)
      (comp_append (PE med) (pe m) [])).

(** [zclip(np.nanmean(comp) if comp else np.nan)] *)
Definition score_valuation : pyfloat :=
  zclip (Some (match valuation_comp with
               | [] => NaN
               | _ :: _ => nanmean valuation_comp
               end)).

(** [zclip(5 + np.nanmean([(r1 or 0)*10, (r3 or 0)*5]))] *)
Definition score_growth : pyfloat :=
  zclip (Some (Fin 5 + nanmean [ (or_else (r_1y m) (Fin 0) * Fin 10)%F;
                                 (or_else (r_3y m) (Fin 0) * Fin 5)%F ])%F).

(** [beta = m.get("beta") or 1.0; zclip(10 - abs(beta-1)*5)] *)
Definition score_risk : pyfloat :=
  let beta := or_else (beta m) (Fin 1) in
  zclip (Some (Fin 10 - fabs (beta - Fin 1) * Fin 5)%F).

(** [zclip((y*100/0.6) if y not in (None, np.nan) else np.nan)].  A
    not-a-number yield gives not-a-number on either branch of the
    conditional, so the model need not tell the object [np.nan] from another
    not-a-number. *)
Definition score_dividend : pyfloat :=
  match div_yield m with
  | None => zclip (Some NaN)
  | Some y => zclip (Some (y * Fin 100 / Fin 0.6)%F)
  end.

(** The [scores] dictionary at the end of [score_stock]. *)
Definition stock_scores (k : factor) : pyfloat :=
  match k with
  | pe_vs_sector => score_pe_vs_sector
  | financial_health => score_financial_health
  | valuation => score_valuation
  | growth => score_growth
  | management => Fin 6
  | moat => Fin 6
  | risk => score_risk
  | dividend => score_dividend
  end.

(** A rationale string: a literal, or a format template with the values
    substituted into it (how Python prints a float is not modelled). *)
Inductive rationale : Type :=
| Text : string -> rationale
| Format : string -> list (option pyfloat) -> rationale.

(** The [exps] dictionary at the end of [score_stock]. *)
Definition stock_exps (k : factor) : rationale :=
  match k with
  | pe_vs_sector => Format "P/E {} vs sector {}" [pe m; Some (Fin (PE med))]
  | financial_health => Format "P/B {} (target ~3)" [pb m]
  | valuation => Text "PE/PS/PFCF vs sector medians"
  | growth => Format "1Y {:.1%} / 3Y {:.1%}" [r_1y m; r_3y m]
  | management => Text "Proxy (v1=6)"
  | moat => Text "Proxy (v1=6)"
  | risk => Format "Beta {}" [Some (or_else (beta m) (Fin 1))]
  | dividend =>
      if truthy (div_yield m) then Format "Yield {:.2%}" [div_yield m]
      else Text "No dividend"
  end.

End Factors.

(** [{k:(STOCK_W[k] if not np.isnan(scores[k]) else 0) for k in STOCK_W}]
    passed to [renorm_weights]. *)
Definition derived_weights (scores : factor -> pyfloat) : dict factor :=
  renorm_weights (zero_unavailable STOCK_W (fun k => negb (isnan (scores k)))).

(** [sum(xs)] of floats: a left fold from [0]. *)
Definition fsum (xs : list pyfloat) : pyfloat := fold_left fadd xs (Fin 0).

(** The generator [w[k]*scores[k] for k in STOCK_W if not np.isnan(scores[k])]. *)
Definition overall_terms (w : dict factor) (scores : factor -> pyfloat) : list pyfloat :=
  map (fun k => (Fin (item factor_eqb w k) * scores k)%F)
      (filter (fun k => negb (isnan (scores k))) (keys STOCK_W)).

(** [round(x, 2)] of a float. *)
Definition fround2 (x : pyfloat) : pyfloat :=
  match x with NaN => NaN | Fin q => Fin (round2 q) end.

(** [overall], before rounding. *)
Definition stock_overall (scores : factor -> pyfloat) : pyfloat :=
  fsum (overall_terms (derived_weights scores) scores).

(** [m.get("sector") or "Default"] *)
Definition sector_or_default (m : metrics) : string :=
  match sector m with
  | Some s => if String.eqb s "" then "Default"%string else s
  | None => "Default"%string
  end.

(** The medians [score_stock] selects. *)
Definition stock_medians (c : country) (m : metrics) : medians :=
  table_get (SECTOR_MEDIANS c) (sector_or_default m) (default_medians c).

(** What a call does: it returns a value or raises [TypeError]. *)
Inductive outcome (A : Type) : Type :=
| Returns : A -> outcome A
| RaisesTypeError : outcome A.
Arguments Returns {A} _.
Arguments RaisesTypeError {A}.

Record stock_rating : Type := mk_rating {
  overall : pyfloat;
  scores : factor -> pyfloat;
  exps : factor -> rationale;
  rated_sector : string
}.

(** [score_stock(country, tkr, m)].  The format specification [.1%] of the
    growth rationale raises [TypeError] on [None]; nothing else in the
    function raises for a bundle of this type. *)
Definition score_stock (c : country) (tkr : string) (m : metrics) : outcome stock_rating :=
  let med := stock_medians c m in
  match r_1y m, r_3y m with
  | Some _, Some _ =>
      Returns (mk_rating (fround2 (stock_overall (stock_scores med m)))
                         (stock_scores med m)
                         (stock_exps med m)
                         (sector_or_default m))
  | _, _ => RaisesTypeError
  end.

(** [reco(overall, buy_thr, hold_thr)] *)
Definition reco (overall buy_thr hold_thr : pyfloat) : string :=
  if fge overall buy_thr then "Buy"
  else if fge overall hold_thr then "Hold"
  else "Sell/Avoid".

(** [reco(overall)] with the default thresholds [8.0] and [6.0]. *)
Definition reco_default (overall : pyfloat) : string := reco overall (Fin 8) (Fin 6).

(* ===================================================================== *)
(** ** Vocabulary of the statements *)
(* ===================================================================== *)

(** Equality of floats: not-a-number with itself (as a value of the
    model), finite values as rationals. *)
Definition feq (a b : pyfloat) : Prop :=
  match a, b with
  | NaN, NaN => True
  | Fin x, Fin y => x == y
  | _, _ => False
  end.

(** A sub-score is undefined or lies in [[0,10]]. *)
Definition in_range (x : pyfloat) : Prop :=
  match x with
  | NaN => True
  | Fin q => 0 <= q /\ q <= 10
  end.

(** The finite value of a float ([0] for not-a-number). *)
Definition val (x : pyfloat) : Q :=
  match x with Fin q => q | NaN => 0 end.

(** The number of members of a list, as a rational. *)
Definition qlen {A : Type} (l : list A) : Q := inject_Z (Z.of_nat (List.length l)).

(** Clamping into [[0,10]], with the library's minimum and maximum. *)
Definition clamp (q : Q) : Q := Qmax 0 (Qmin 10 q).

(** The metric bundle of the end-to-end example: price/earnings 18, beta
    1.0, dividend yield 0.02, returns 0.10 and 0.30, price/book 3.0, no
    sector, price/sales and price/free-cash-flow absent. *)
Definition example_bundle : metrics :=
  mk_metrics None (Some (Fin 1)) (Some (Fin 18)) (Some (Fin 3)) None None
             (Some (Fin 0.02)) (Some (Fin 0.10)) (Some (Fin 0.30)).

(** The bundle in which every field is [None]. *)
Definition empty_bundle : metrics :=
  mk_metrics None None None None None None None None None.

(** Bundles that differ from [empty_bundle] in one or two fields. *)
Definition zero_yield_bundle : metrics :=
  mk_metrics None None None None None None (Some (Fin 0)) None None.

Definition zero_beta_bundle : metrics :=
  mk_metrics None (Some (Fin 0)) None None None None None None None.

(** The 1-year return is missing the way the data fetch of the program
    reports it ([r1 = r3 = np.nan] unless the price history is long
    enough); the 3-year return is 0.30. *)
Definition short_history_bundle : metrics :=
  mk_metrics None None None None None None None (Some NaN) (Some (Fin 0.30)).

(** The 1-year return is [None]; the 3-year return is 0.30. *)
Definition none_return_bundle : metrics :=
  mk_metrics None None None None None None None None (Some (Fin 0.30)).

Definition no_history_bundle : metrics :=
  mk_metrics None None None None None None None (Some NaN) (Some NaN).

(** Price/earnings 1.8 and price/sales 4 (US default medians: 18 and 2). *)
Definition cheap_pe_bundle : metrics :=
  mk_metrics None None (Some (Fin 1.8)) None (Some (Fin 4)) None None
             (Some NaN) (Some NaN).

(** Every metric unknown, each in the form for which its factor is
    undefined. *)
Definition unknown_bundle : metrics :=
  mk_metrics None (Some NaN) None None None None None (Some NaN) (Some NaN).

(** One valuation sub-ratio before clamping: [5 + 5*(median/actual - 1)],
    not-a-number when it is unavailable ([actual] or [median] missing or
    zero). *)
Definition sub_ratio (median : Q) (actual : option pyfloat) : pyfloat :=
  match actual with
  | Some x =>
      if truthy actual && qtruthy median
      then (Fin 5 + Fin 5 * (Fin median / x - Fin 1))%F
      else NaN
  | None => NaN
  end.

(** The valuation factor in the words of the specification: the mean of
    the available sub-ratio scores, each clamped into [[0,10]]. *)
Definition spec_valuation (med : medians) (m : metrics) : pyfloat :=
  nanmean [ zclip (Some (sub_ratio (PE med) (pe m)));
            zclip (Some (sub_ratio (PS med) (ps m)));
            zclip (Some (sub_ratio (PFCF med) (pfcf m))) ].

(* ===================================================================== *)
(** ** The rest of the program: helper, data fetch and page *)
(* ===================================================================== *)

(** [safe_div(a, b, default)]: [default] when [b] is [None] or zero, and
    when the division raises (a [None] numerator); [a/b] otherwise. *)
Definition safe_div (a b : option pyfloat) (default : pyfloat) : pyfloat :=
  match b with
  | None => default
  | Some bv =>
      if truthy b
      then match a with
           | Some av => (av / bv)%F
           | None => default
           end
      else default
  end.

(** [s.replace(old, "")] for a non-empty [old]: occurrences are removed
    from left to right, without overlap.  [skip] counts the characters of
    the occurrence being removed that are still to be dropped. *)
Fixpoint remove_from (old s : string) (skip : nat) : string :=
  match s with
  | EmptyString => EmptyString
  | String c r =>
      match skip with
      | S k => remove_from old r k
      | O =>
          if String.prefix old s
          then remove_from old r (String.length old - 1)
          else String c (remove_from old r 0)
      end
  end.

Definition remove (s old : string) : string := remove_from old s 0.

(** What the data provider answers for a ticker: the fields of [tk.info]
    that the program reads (an absent or [None] field is [None]; an absent
    [info] has every field absent) and the [Close] column of the daily
    history, oldest first (empty when the history is empty). *)
Record yahoo : Type := mk_yahoo {
  currentPrice : option pyfloat;
  regularMarketPrice : option pyfloat;
  info_sector : option string;
  info_industry : option string;
  info_beta : option pyfloat;
  trailingPE : option pyfloat;
  priceToBook : option pyfloat;
  priceToSalesTrailing12Months : option pyfloat;
  trailingPegRatio : option pyfloat;
  dividendYield : option pyfloat;
  close : list pyfloat
}.

(** The dictionary [fetch_yahoo] returns: the price, the industry and the
    fields [score_stock] reads. *)
Record fetched : Type := mk_fetched {
  price : pyfloat;
  industry : option string;
  bundle : metrics
}.

(** [r1] and [r3] of [fetch_yahoo]: not-a-number unless the history has
    closes; [r1] needs more than 252 of them.  The closes are floats of the
    provider: a close of zero would make a quotient infinite, which is
    outside the model of floats, so statements about the value of a return
    assume non-zero closes. *)
Definition history_returns (c : list pyfloat) : pyfloat * pyfloat :=
  match c with
  | [] => (NaN, NaN)
  | first :: _ =>
      let last := List.last c NaN in
      ( if (252 <? List.length c)%nat
        then (last / nth (List.length c - 252) c NaN - Fin 1)%F
        else NaN,
        (last / first - Fin 1)%F )
  end.

(** The body of [fetch_yahoo] after the two requests to the provider. *)
Definition fetch_yahoo_of (y : yahoo) : fetched :=
  let price :=
    or_else (currentPrice y)
      (or_else (regularMarketPrice y)
         (match close y with [] => NaN | _ :: _ => List.last (close y) NaN end)) in
  let r := history_returns (close y) in
  mk_fetched price (info_industry y)
    (mk_metrics (info_sector y) (info_beta y) (trailingPE y) (priceToBook y)
                (priceToSalesTrailing12Months y) (trailingPegRatio y)
                (dividendYield y) (Some (fst r)) (Some (snd r))).

Section Fetch.

(** The data provider: what it answers for each ticker. *)
Variable provider : string -> yahoo.

(** [fetch_yahoo(ticker)] *)
Definition fetch_yahoo (ticker : string) : fetched := fetch_yahoo_of (provider ticker).

(** [fetch_for(code, country, itype)] *)
Definition fetch_for (code : string) (c : country) (t : itype) : fetched :=
  match c with
  | India =>
      let core := remove (remove code "NSE:") "BSE:" in
      let data := fetch_yahoo (core ++ ".NS") in
      if isnan (price data) then fetch_yahoo (core ++ ".BO") else data
  | US => fetch_yahoo code
  end.

(** The first candidate that is not blank, stripped: the loop that sets
    [query]. *)
Fixpoint pick_query (candidates : list string) : option string :=
  match candidates with
  | [] => None
  | candidate :: rest =>
      if (String.length (Str.strip candidate) =? 0)%nat
      then pick_query rest
      else Some (Str.strip candidate)
  end.

(** What the page writes after its inputs are read, in order. *)
Inductive shown : Type :=
| Detected : country -> itype -> string -> shown
| CouldNotFetch : shown
| OverallLine : pyfloat -> string -> shown
| SectorLine : string -> shown
| NotImplemented : shown
| FactorTable : list (factor * option Q * pyfloat * rationale) -> shown
| KeyMetrics : fetched -> shown
| EnterInput : shown.

(** How a run of the page ends: at the end of the script, at [st.stop()],
    or with an exception. *)
Inductive ending : Type :=
| Finished | Stopped | NameError | TypeError.

(** The rows of the data frame: factor, [STOCK_W.get(k)], score and
    rationale, for the keys of [scores]. *)
Definition table_rows (r : stock_rating) : list (factor * option Q * pyfloat * rationale) :=
  map (fun k => (k, dict_get factor_eqb STOCK_W k, scores r k, exps r k))
      [pe_vs_sector; financial_health; valuation; growth; management; moat;
       risk; dividend].

(** One run of the page for the three text inputs and the two sliders.
    On the branch of the other instrument types [scores] is never assigned,
    so building the data frame raises [NameError]. *)
Definition page (us_ticker in_ticker mf_code : string) (buy_thr hold_thr : pyfloat)
  : list shown * ending :=
  match pick_query [us_ticker; in_ticker; mf_code] with
  | None => ([EnterInput], Finished)
  | Some query =>
      let '(c, t, code) := detect_country_and_type query in
      let data := fetch_for code c t in
      if isnan (price data) then ([Detected c t code; CouldNotFetch], Stopped)
      else
        match t with
        | Stock =>
            match score_stock c code (bundle data) with
            | Returns r =>
                ([ Detected c t code;
                   OverallLine (overall r) (reco (overall r) buy_thr hold_thr);
                   SectorLine (if String.eqb (rated_sector r) "" then "n/a"%string
                               else rated_sector r);
                   FactorTable (table_rows r);
                   KeyMetrics data ], Finished)
            | RaisesTypeError => ([Detected c t code], TypeError)
            end
        | _ => ([Detected c t code; NotImplemented], NameError)
        end
  end.

End Fetch.

(** A metric a ratio can be computed from: a number other than zero. *)
Definition usable (v : option pyfloat) : bool :=
  match v with
  | Some (Fin q) => negb (Qeq_bool q 0)
  | _ => false
  end.

(** A metric that is a number. *)
Definition is_number (v : option pyfloat) : bool :=
  match v with
  | Some (Fin _) => true
  | _ => false
  end.

(** [lstrip] on the list of characters of a string. *)
Fixpoint lstrip_list (l : list ascii) : list ascii :=
  match l with
  | [] => []
  | c :: r => if Str.is_space c then lstrip_list r else l
  end.

(** How a raw code is normalised before detection: [s.strip().upper()]. *)
Definition normalise (s : string) : string := Str.upper (Str.strip s).

(** A code without a colon. *)
Definition no_colon (s : string) : Prop :=
  ~ In ":"%char (list_ascii_of_string s).

(** The lookup [fetch_for] makes for an India code: the first symbol, and
    the second when the first has no price. *)
Definition first_priced (provider : string -> yahoo) (a b : string) : fetched :=
  if isnan (price (fetch_yahoo provider a)) then fetch_yahoo provider b
  else fetch_yahoo provider a.

(** A provider that answers every ticker alike: a current price of 10, a
    price/earnings ratio of 18 and a history of two closes. *)
Definition example_provider (ticker : string) : yahoo :=
  mk_yahoo (Some (Fin 10)) None None None None (Some (Fin 18)) None None None None
           [Fin 1; Fin 2].

(** The weight dictionaries on the floats of the program (binary64): the
    same three statements as [sum_values], [renorm_weights] and
    [zero_unavailable], with the float operations of Python. *)
Module Float64.

Import PrimFloat.













End Float64.



(** The order of the recommendations, from worst to best. *)
Definition reco_rank (r : string) : nat :=
  if String.eqb r "Buy" then 2 else if String.eqb r "Hold" then 1 else 0.

(* ===================================================================== *)
(** ** Basic facts about the operators *)
(* ===================================================================== *)

Lemma Qltb_spec (x y : Q) : reflect (x < y) (Qltb x y).
Proof.
  unfold Qltb. destruct (x ?= y) eqn:E; constructor.
  - apply Qeq_alt in E. lra.
  - now apply Qlt_alt.
  - apply Qgt_alt in E. lra.
Qed.

Lemma qtruthy_spec (q : Q) : reflect (~ q == 0) (qtruthy q).
Proof.
  unfold qtruthy. destruct (Qeq_bool q 0) eqn:E; constructor.
  - apply Qeq_bool_eq in E. tauto.
  - now apply Qeq_bool_neq.
Qed.

Lemma pyclip_bounds (lo hi q : Q) :
  lo <= hi -> lo <= pymax lo (pymin hi q) /\ pymax lo (pymin hi q) <= hi.
Proof.
  intros Hlh. unfold pymax, pymin.
  destruct (Qltb_spec q hi); [destruct (Qltb_spec lo q) | destruct (Qltb_spec lo hi)]; lra.
Qed.

Lemma pyclip_clamp (q : Q) : pymax 0 (pymin 10 q) == clamp q.
Proof.
  unfold clamp, pymax, pymin.
  destruct (Q.min_spec 10 q) as [[H1 E1] | [H1 E1]];
    destruct (Q.max_spec 0 (Qmin 10 q)) as [[H2 E2] | [H2 E2]];
    rewrite E2; rewrite ?E1; rewrite E1 in H2;
    destruct (Qltb_spec q 10); try lra;
    match goal with |- context [Qltb ?a ?b] => destruct (Qltb_spec a b) end; lra.
Qed.

Lemma zclip_in_range (x : option pyfloat) : in_range (zclip x).
Proof.
  destruct x as [[|q]|]; simpl; try exact I.
  apply pyclip_bounds. lra.
Qed.

Lemma zclip_fin (q : Q) : feq (zclip (Some (Fin q))) (Fin (clamp q)).
Proof. simpl. apply pyclip_clamp. Qed.

Lemma zclip_feq (a b : pyfloat) : feq a b -> feq (zclip (Some a)) (zclip (Some b)).
Proof.
  destruct a as [|x], b as [|y]; simpl; try tauto.
  intros E. rewrite !pyclip_clamp. unfold clamp. now rewrite E.
Qed.

(* ===================================================================== *)
(** ** Score clamping *)
(* ===================================================================== *)

Lemma stock_scores_range (med : medians) (m : metrics) (k : factor) :
  in_range (stock_scores med m k).
Proof.
  destruct k; simpl.
  - unfold score_pe_vs_sector.
    destruct (pe m); [destruct (_ && _)|]; try exact I. apply zclip_in_range.
  - unfold score_financial_health.
    destruct (truthy (pb m)); [apply zclip_in_range | exact I].
  - apply zclip_in_range.
  - apply zclip_in_range.
  - lra.
  - lra.
  - apply zclip_in_range.
  - unfold score_dividend. destruct (div_yield m); apply zclip_in_range.
Qed.

(** C7.  Whatever the medians and the metric bundle, each of the eight
    sub-scores of the [scores] dictionary is undefined (not-a-number) or
    lies in the closed interval [[0,10]]; and these are the sub-scores
    [score_stock] returns whenever it returns. *)
Theorem scores_in_range :
  forall (med : medians) (m : metrics) (k : factor),
    in_range (stock_scores med m k) /\
    forall (c : country) (tkr : string),
      match score_stock c tkr m with
      | Returns r => in_range (scores r k)
      | RaisesTypeError => True
      end.
Proof.
  intros med m k. split; [apply stock_scores_range|].
  intros c tkr. unfold score_stock.
  destruct (r_1y m); [destruct (r_3y m)|]; simpl; auto.
  apply stock_scores_range.
Qed.

(* ===================================================================== *)
(** ** Recommendation classifier *)
(* ===================================================================== *)

(** C8.  For a defined overall score [q] and thresholds [b] (buy) and [h]
    (hold): [Buy] when [q >= b]; otherwise [Hold] when [q >= h]; otherwise
    [Sell/Avoid].  At the boundaries of the default thresholds:
    [reco(8.0, 8.0, 6.0)] is [Buy], [reco(7.99, 8.0, 6.0)] is [Hold] and
    [reco(5.99, 8.0, 6.0)] is [Sell/Avoid]. *)
Theorem reco_thresholds :
  forall q b h : Q,
    (b <= q -> reco (Fin q) (Fin b) (Fin h) = "Buy"%string) /\
    (q < b -> h <= q -> reco (Fin q) (Fin b) (Fin h) = "Hold"%string) /\
    (q < b -> q < h -> reco (Fin q) (Fin b) (Fin h) = "Sell/Avoid"%string) /\
    reco (Fin 8.0) (Fin 8.0) (Fin 6.0) = "Buy"%string /\
    reco (Fin 7.99) (Fin 8.0) (Fin 6.0) = "Hold"%string /\
    reco (Fin 5.99) (Fin 8.0) (Fin 6.0) = "Sell/Avoid"%string.
Proof.
  intros q b h. unfold reco, fge.
  repeat split; try reflexivity.
  - intros Hb. apply Qle_bool_iff in Hb. now rewrite Hb.
  - intros Hb Hh.
    destruct (Qle_bool b q) eqn:E; [apply Qle_bool_iff in E; lra|].
    apply Qle_bool_iff in Hh. now rewrite Hh.
  - intros Hb Hh.
    destruct (Qle_bool b q) eqn:E; [apply Qle_bool_iff in E; lra|].
    destruct (Qle_bool h q) eqn:E'; [apply Qle_bool_iff in E'; lra|].
    reflexivity.
Qed.

Lemma reco_thresholds_witness :
  reco (Fin 7) (Fin 8) (Fin 6) = "Hold"%string.
Proof.
  destruct (reco_thresholds 7 8 6) as (_ & H & _).
  apply H; [reflexivity | discriminate].
Defined.


(* ===================================================================== *)
(** ** Risk *)
(* ===================================================================== *)

Lemma truthy_fin (q : Q) : truthy (Some (Fin q)) = qtruthy q.
Proof. reflexivity. Qed.

(** C9, as stated, fails for a beta of exactly zero, a value that is
    present in the bundle: [m.get("beta") or 1.0] replaces it by [1.0], so
    the risk score is 10, where [10 - |0 - 1|*5] is 5. *)
Lemma risk_zero_beta_counterexample :
  feq (score_risk zero_beta_bundle) (Fin 10) /\
  ~ feq (score_risk zero_beta_bundle) (Fin (clamp (10 - Qabs (0 - 1) * 5))).
Proof.
  split.
  - vm_compute. reflexivity.
  - vm_compute. discriminate.
Qed.

(** C9, amended.  The risk sub-score is 10 when beta is [None] or exactly
    zero (beta is then taken as 1.0), undefined when beta is not-a-number,
    and [10 - |beta - 1|*5] clamped into [[0,10]] for every other beta. *)
Theorem risk_score_cases :
  forall m : metrics,
    match beta m with
    | None => feq (score_risk m) (Fin 10)
    | Some NaN => score_risk m = NaN
    | Some (Fin b) =>
        (b == 0 -> feq (score_risk m) (Fin 10)) /\
        (~ b == 0 -> feq (score_risk m) (Fin (clamp (10 - Qabs (b - 1) * 5))))
    end.
Proof.
  intros m. unfold score_risk. destruct (beta m) as [[|b]|].
  - reflexivity.
  - unfold or_else. rewrite truthy_fin.
    destruct (qtruthy_spec b) as [Hb | Hb]; split; intros Hz; try tauto.
    + apply zclip_fin.
    + vm_compute. reflexivity.
  - vm_compute. reflexivity.
Qed.

Lemma risk_score_cases_witness :
  feq (score_risk example_bundle) (Fin (clamp (10 - Qabs (1 - 1) * 5))).
Proof.
  apply (risk_score_cases example_bundle). discriminate.
Defined.


(* ===================================================================== *)
(** ** Dividend *)
(* ===================================================================== *)

(** C5, as stated, fails for a dividend yield of exactly zero: its
    sub-score is the defined value 0.0, not the undefined sub-score of a
    missing yield. *)
Lemma dividend_zero_yield_counterexample :
  feq (score_dividend zero_yield_bundle) (Fin 0) /\
  score_dividend empty_bundle = NaN /\
  ~ feq (score_dividend zero_yield_bundle) (score_dividend empty_bundle).
Proof.
  repeat split.
  vm_compute. tauto.
Qed.

(** C5, amended.  The dividend sub-score is undefined when the yield is
    missing ([None] or not-a-number) and [yield*100/0.6] clamped into
    [[0,10]] when it is a number; a yield of exactly zero gives the defined
    sub-score 0, and shares with a [None] yield only the rationale text
    ["No dividend"]. *)
Theorem dividend_score_cases :
  forall (med : medians) (m : metrics),
    match div_yield m with
    | None =>
        score_dividend m = NaN /\
        stock_exps med m dividend = Text "No dividend"
    | Some NaN => score_dividend m = NaN
    | Some (Fin y) =>
        feq (score_dividend m) (Fin (clamp (y * 100 / 0.6))) /\
        (y == 0 ->
         feq (score_dividend m) (Fin 0) /\
         stock_exps med m dividend = Text "No dividend")
    end.
Proof.
  intros med m. unfold score_dividend. simpl.
  destruct (div_yield m) as [[|y]|]; simpl; auto.
  split.
  - apply pyclip_clamp.
  - intros Hy. split.
    + rewrite pyclip_clamp. unfold clamp. rewrite Hy. vm_compute. reflexivity.
    + apply Qeq_bool_iff in Hy. now rewrite Hy.
Qed.

Lemma dividend_score_cases_witness :
  feq (score_dividend zero_yield_bundle) (Fin 0) /\
  stock_exps (default_medians US) zero_yield_bundle dividend = Text "No dividend".
Proof.
  apply (dividend_score_cases (default_medians US) zero_yield_bundle). reflexivity.
Defined.


(* ===================================================================== *)
(** ** Growth *)
(* ===================================================================== *)

#[local] Instance clamp_proper : Proper (Qeq ==> Qeq) clamp.
Proof. intros x y E. unfold clamp. now rewrite E. Qed.

Lemma zclip_fin_eq (q e : Q) : q == e -> feq (zclip (Some (Fin q))) (Fin (clamp e)).
Proof. intros E. simpl. rewrite pyclip_clamp. now rewrite E. Qed.

(** C4, as stated, fails for a return that is missing as not-a-number:
    [(r1 or 0)] keeps a not-a-number ([nan] is true), and [np.nanmean]
    leaves it out of the mean.  With the 1-year return missing and a 3-year
    return of 0.30 the growth score is 5 + 1.5 = 6.5, not
    5 + mean(0, 1.5) = 5.75; with both returns missing it is undefined,
    not 5.0.  (A return that is [None] does get the 0 term, but
    [score_stock] then raises while formatting the growth rationale, so no
    growth score is returned for it.) *)
Lemma growth_missing_return_counterexample :
  feq (score_growth short_history_bundle) (Fin 6.5) /\
  ~ feq (score_growth short_history_bundle)
        (Fin (clamp (5 + (0 * 10 + 0.30 * 5) / 2))) /\
  score_growth no_history_bundle = NaN /\
  ~ feq (score_growth no_history_bundle) (Fin 5) /\
  score_stock US "" none_return_bundle = RaisesTypeError.
Proof.
  split; [vm_compute; reflexivity|].
  split; [vm_compute; discriminate|].
  split; [reflexivity|].
  split; [vm_compute; tauto|].
  reflexivity.
Qed.

(** C4, amended.  For returns given as floats, the growth sub-score is
    5 plus the mean of those of [1yr_return*10] and [3yr_return*5] whose
    return is a number, clamped into [[0,10]]: a not-a-number return is
    left out of the mean (the other term is then taken alone), and with
    both returns not-a-number the growth score is undefined. *)
Theorem growth_score_cases :
  forall (m : metrics) (a b : pyfloat),
    r_1y m = Some a -> r_3y m = Some b ->
    feq (score_growth m)
        match a, b with
        | NaN, NaN => NaN
        | NaN, Fin y => Fin (clamp (5 + y * 5))
        | Fin x, NaN => Fin (clamp (5 + x * 10))
        | Fin x, Fin y => Fin (clamp (5 + (x * 10 + y * 5) / 2))
        end.
Proof.
  intros m a b H1 H2. unfold score_growth, or_else. rewrite H1, H2.
  destruct a as [|x], b as [|y]; rewrite ?truthy_fin.
  - exact I.
  - destruct (qtruthy_spec y) as [Hy|Hy]; apply zclip_fin_eq;
      unfold qsum; simpl; field_simplify_eq; lra.
  - destruct (qtruthy_spec x) as [Hx|Hx]; apply zclip_fin_eq;
      unfold qsum; simpl; field_simplify_eq; lra.
  - destruct (qtruthy_spec x) as [Hx|Hx], (qtruthy_spec y) as [Hy|Hy];
      apply zclip_fin_eq; unfold qsum; simpl; field_simplify_eq; lra.
Qed.

Lemma growth_score_cases_witness :
  feq (score_growth example_bundle) (Fin (clamp (5 + (0.10 * 10 + 0.30 * 5) / 2))).
Proof.
  apply (growth_score_cases example_bundle (Fin 0.10) (Fin 0.30)); reflexivity.
Defined.

(* ===================================================================== *)
(** ** Valuation against the sector *)
(* ===================================================================== *)

(** C3, as stated, fails: the valuation factor is not the mean of the
    clamped sub-ratio scores.  With price/earnings 1.8 and price/sales 4
    under the US default medians the two sub-ratios are 50 and 2.5: their
    mean 26.25 is clamped to 10, while the mean of the clamped scores 10
    and 2.5 is 6.25. *)
Lemma valuation_mean_of_clamped_counterexample :
  feq (score_valuation (stock_medians US cheap_pe_bundle) cheap_pe_bundle) (Fin 10) /\
  feq (spec_valuation (stock_medians US cheap_pe_bundle) cheap_pe_bundle) (Fin 6.25) /\
  ~ feq (score_valuation (stock_medians US cheap_pe_bundle) cheap_pe_bundle)
        (spec_valuation (stock_medians US cheap_pe_bundle) cheap_pe_bundle).
Proof.
  split; [|split].
  - vm_compute. reflexivity.
  - vm_compute. reflexivity.
  - vm_compute. discriminate.
Qed.

Lemma comp_append_finite (median : Q) (actual : option pyfloat) (comp : list pyfloat) :
  finite_part (comp_append median actual comp) =
  finite_part (comp ++ [sub_ratio median actual]).
Proof.
  unfold comp_append, sub_ratio.
  assert (E : forall l, finite_part (l ++ [NaN]) = finite_part l).
  { induction l as [|[|q] l IH]; simpl; congruence. }
  destruct actual as [x|]; [destruct (_ && _)|]; rewrite ?E; reflexivity.
Qed.

Lemma finite_part_app (l1 l2 : list pyfloat) :
  finite_part (l1 ++ l2) = finite_part l1 ++ finite_part l2.
Proof.
  induction l1 as [|[|q] l1 IH]; simpl; congruence.
Qed.

Lemma nanmean_finite_part (l1 l2 : list pyfloat) :
  finite_part l1 = finite_part l2 -> nanmean l1 = nanmean l2.
Proof. unfold nanmean. now intros ->. Qed.

Lemma finite_part_nil_nanmean (l : list pyfloat) :
  match l with [] => NaN | _ :: _ => nanmean l end = nanmean l.
Proof. destruct l; reflexivity. Qed.

(** C3, amended.  Each valuation sub-ratio (price/earnings, price/sales,
    price/free-cash-flow) is [5 + 5*(median/actual - 1)], available when
    both [actual] and [median] are present and non-zero.  The
    [pe_vs_sector] factor is the price/earnings sub-ratio clamped into
    [[0,10]].  The [valuation] factor is the arithmetic mean of the
    available sub-ratios, taken before any clamping, and then clamped into
    [[0,10]]; it is undefined when none of the three is available. *)
Theorem valuation_score_mean_then_clamp :
  forall (med : medians) (m : metrics),
    score_pe_vs_sector med m = zclip (Some (sub_ratio (PE med) (pe m))) /\
    score_valuation med m =
      zclip (Some (nanmean [ sub_ratio (PE med) (pe m);
                             sub_ratio (PS med) (ps m);
                             sub_ratio (PFCF med) (pfcf m) ])) /\
    (sub_ratio (PE med) (pe m) = NaN ->
     sub_ratio (PS med) (ps m) = NaN ->
     sub_ratio (PFCF med) (pfcf m) = NaN ->
     score_valuation med m = NaN) /\
    (forall a b c : Q,
       sub_ratio (PE med) (pe m) = Fin a ->
       sub_ratio (PS med) (ps m) = Fin b ->
       sub_ratio (PFCF med) (pfcf m) = Fin c ->
       feq (score_valuation med m) (Fin (clamp ((a + b + c) / 3)))) /\
    (forall a b : Q,
       sub_ratio (PE med) (pe m) = Fin a ->
       sub_ratio (PS med) (ps m) = Fin b ->
       sub_ratio (PFCF med) (pfcf m) = NaN ->
       feq (score_valuation med m) (Fin (clamp ((a + b) / 2)))) /\
    (forall a : Q,
       sub_ratio (PE med) (pe m) = Fin a ->
       sub_ratio (PS med) (ps m) = NaN ->
       sub_ratio (PFCF med) (pfcf m) = NaN ->
       feq (score_valuation med m) (score_pe_vs_sector med m)).
Proof.
  intros med m.
  assert (Hpe : score_pe_vs_sector med m = zclip (Some (sub_ratio (PE med) (pe m)))).
  { unfold score_pe_vs_sector, sub_ratio.
    destruct (pe m); [destruct (_ && _)|]; reflexivity. }
  assert (Hval : score_valuation med m =
                 zclip (Some (nanmean [ sub_ratio (PE med) (pe m);
                                        sub_ratio (PS med) (ps m);
                                        sub_ratio (PFCF med) (pfcf m) ]))).
  { unfold score_valuation. rewrite finite_part_nil_nanmean.
    do 2 f_equal. apply nanmean_finite_part. unfold valuation_comp.
    rewrite comp_append_finite, finite_part_app.
    rewrite comp_append_finite, finite_part_app.
    rewrite comp_append_finite. simpl app.
    change [sub_ratio (PE med) (pe m); sub_ratio (PS med) (ps m); sub_ratio (PFCF med) (pfcf m)]
      with ([sub_ratio (PE med) (pe m)] ++ [sub_ratio (PS med) (ps m)]
              ++ [sub_ratio (PFCF med) (pfcf m)]).
    rewrite !finite_part_app. now rewrite app_assoc. }
  split; [exact Hpe|]. split; [exact Hval|].
  rewrite Hval, Hpe. repeat split.
  - intros -> -> ->. reflexivity.
  - intros a b c -> -> ->. apply zclip_fin_eq.
    unfold qsum. simpl. field_simplify_eq. lra.
  - intros a b -> -> ->. apply zclip_fin_eq.
    unfold qsum. simpl. field_simplify_eq. lra.
  - intros a -> -> ->. apply zclip_feq. simpl.
    unfold qsum. simpl. field.
Qed.

Lemma valuation_score_mean_then_clamp_witness :
  feq (score_valuation (default_medians US) cheap_pe_bundle)
      (Fin (clamp ((5 + 5 * (18 / 1.8 - 1) + (5 + 5 * (2 / 4 - 1))) / 2))).
Proof.
  destruct (valuation_score_mean_then_clamp (default_medians US) cheap_pe_bundle)
    as (_ & _ & _ & _ & H & _).
  apply H; reflexivity.
Defined.


(* ===================================================================== *)
(** ** Instrument detection *)
(* ===================================================================== *)

(** The tests of [detect_country_and_type] in the order the code makes
    them. *)
Lemma detect_country_and_type_cases (code_raw : string) :
  let s := Str.upper (Str.strip code_raw) in
  detect_country_and_type code_raw =
    if Str.startswith s "INF" then (India, MutualFund, s)
    else if (String.length s =? 5)%nat && Str.endswith s "X" then (US, MutualFund, s)
    else if Str.startswith s "NSE:" || Str.startswith s "BSE:" then (India, Stock, s)
    else if Str.endswith s "BEES" then (India, ETF, s)
    else (US, Stock, s).
Proof.
  simpl. unfold detect_country_and_type.
  destruct (Str.startswith _ "INF"); simpl; [reflexivity|].
  destruct ((_ =? 5)%nat && _); reflexivity.
Qed.

(** A code with suffix [BEES] is an India ETF when none of the earlier
    tests takes it. *)
Lemma detect_bees_without_prefix (code_raw : string) :
  let s := Str.upper (Str.strip code_raw) in
  Str.endswith s "BEES" = true ->
  Str.startswith s "INF" = false ->
  (String.length s =? 5)%nat && Str.endswith s "X" = false ->
  Str.startswith s "NSE:" = false ->
  Str.startswith s "BSE:" = false ->
  detect_country_and_type code_raw = (India, ETF, s).
Proof.
  intros s Hb H1 H2 H3 H4. rewrite detect_country_and_type_cases.
  fold s. now rewrite H1, H2, H3, H4, Hb.
Qed.

(** C6.  The code [NSE:NIFTYBEES] has suffix [BEES] and is listed among
    the India ETFs of [UNIVERSE], yet detection returns an India stock for
    it: the exchange-prefix test comes before the suffix test.  The same
    holds for every India ETF of [UNIVERSE]; without the prefix the code is
    detected as an India ETF. *)
Theorem detect_prefixed_bees_is_stock :
  Str.endswith (Str.upper (Str.strip "NSE:NIFTYBEES")) "BEES" = true /\
  In "NSE:NIFTYBEES"%string (UNIVERSE India ETF) /\
  detect_country_and_type "NSE:NIFTYBEES" = (India, Stock, "NSE:NIFTYBEES"%string) /\
  Forall (fun code => detect_country_and_type code = (India, Stock, code))
         (UNIVERSE India ETF) /\
  detect_country_and_type "NIFTYBEES" = (India, ETF, "NIFTYBEES"%string).
Proof.
  split; [reflexivity|]. split; [simpl; auto|]. split; [reflexivity|].
  split; [|reflexivity].
  repeat constructor.
Qed.

(* ===================================================================== *)
(** ** The end-to-end example *)
(* ===================================================================== *)

(** C1.  For the US market and the bundle price/earnings 18, beta 1.0,
    dividend yield 0.02, 1-year return 0.10, 3-year return 0.30, price/book
    3.0, no sector, price/sales and price/free-cash-flow absent: the
    medians are the US default ones (price/earnings 18); the sub-scores are
    pe_vs_sector 5, financial_health 10, risk 10, dividend 0.02*100/0.6
    (within 0.005 of 3.33), growth 6.25, management 6, moat 6, valuation 5;
    the eight derived weights are 0.125 each; the overall score is their
    mean, returned rounded as 6.45; and the classifier with the default
    thresholds 8.0 and 6.0 answers Hold. *)
Theorem end_to_end_example :
  forall tkr : string,
    stock_medians US example_bundle = mk_medians 18 12 2 18 /\
    match score_stock US tkr example_bundle with
    | Returns r =>
        feq (scores r pe_vs_sector) (Fin 5.0) /\
        feq (scores r financial_health) (Fin 10.0) /\
        feq (scores r risk) (Fin 10.0) /\
        feq (scores r dividend) (Fin (0.02 * 100 / 0.6)) /\
        Qabs (val (scores r dividend) - 3.33) < 0.005 /\
        feq (scores r growth) (Fin 6.25) /\
        feq (scores r management) (Fin 6.0) /\
        feq (scores r moat) (Fin 6.0) /\
        feq (scores r valuation) (Fin 5.0) /\
        Forall (fun kv => snd kv == 0.125) (derived_weights (scores r)) /\
        feq (stock_overall (scores r))
            (Fin ((5.0 + 10.0 + 5.0 + 6.25 + 6.0 + 6.0 + 10.0 + 0.02 * 100 / 0.6) / 8)) /\
        Qabs (val (stock_overall (scores r)) - 6.45) < 0.005 /\
        feq (overall r) (Fin 6.45) /\
        reco_default (overall r) = "Hold"%string
    | RaisesTypeError => False
    end.
Proof.
  intros tkr. split; [reflexivity|].
  unfold score_stock. simpl r_1y. simpl r_3y. cbv iota. cbv beta.
  simpl scores. simpl overall.
  repeat match goal with |- _ /\ _ => split end;
    try (vm_compute; reflexivity).
  vm_compute. repeat constructor.
Qed.

(* ===================================================================== *)
(** ** Sums *)
(* ===================================================================== *)

Lemma fold_Qplus_acc (l : list Q) (a : Q) :
  fold_left Qplus l a == a + qsum l.
Proof.
  unfold qsum. revert a. induction l as [|x l IH]; intros a; simpl.
  - lra.
  - rewrite IH, (IH (0 + x)). lra.
Qed.

Lemma qsum_nil : qsum [] == 0.
Proof. reflexivity. Qed.

Lemma qsum_cons (x : Q) (l : list Q) : qsum (x :: l) == x + qsum l.
Proof. unfold qsum at 1. simpl. rewrite fold_Qplus_acc. lra. Qed.

Lemma qsum_nonneg (l : list Q) : Forall (fun v => 0 <= v) l -> 0 <= qsum l.
Proof.
  induction 1 as [|x l Hx _ IH].
  - rewrite qsum_nil. lra.
  - rewrite qsum_cons. lra.
Qed.


(** The sum of floats that are all finite is the finite sum. *)
Lemma fsum_finite (l : list Q) : fsum (map Fin l) = Fin (qsum l).
Proof.
  unfold fsum, qsum. generalize 0. induction l as [|x l IH]; intros a; simpl.
  - reflexivity.
  - apply IH.
Qed.

Lemma qlen_cons {A : Type} (x : A) (l : list A) : qlen (x :: l) == 1 + qlen l.
Proof.
  unfold qlen. cbn [List.length]. rewrite Nat2Z.inj_succ.
  unfold Z.succ. rewrite inject_Z_plus. change (inject_Z 1) with 1. ring.
Qed.

Lemma qlen_nonneg {A : Type} (l : list A) : 0 <= qlen l.
Proof.
  unfold qlen. change 0 with (inject_Z 0). rewrite <- Zle_Qle. lia.
Qed.

(** A sum of products [f k * g k] in which every [f k] is the same [t]. *)
Lemma qsum_scale {A : Type} (f g : A -> Q) (t : Q) (l : list A) :
  (forall k, In k l -> f k == t) ->
  qsum (map (fun k => f k * g k) l) == t * qsum (map g l).
Proof.
  induction l as [|k l IH]; intros H; simpl map.
  - rewrite qsum_nil. ring.
  - rewrite !qsum_cons, IH, (H k (or_introl eq_refl)).
    + ring.
    + intros k' Hk'. apply H. now right.
Qed.

(** A sum of values of [[0,10]]. *)
Lemma qsum_bounds {A : Type} (g : A -> Q) (l : list A) :
  (forall k, In k l -> 0 <= g k /\ g k <= 10) ->
  0 <= qsum (map g l) /\ qsum (map g l) <= 10 * qlen l.
Proof.
  induction l as [|k l IH]; intros H; simpl map.
  - rewrite qsum_nil. change (qlen (@nil A)) with 0. split; lra.
  - rewrite qsum_cons, qlen_cons.
    destruct (H k (or_introl eq_refl)) as (G0 & G10).
    destruct IH as [IH0 IH10]; [intros k' Hk'; apply H; now right|].
    split; lra.
Qed.

Lemma qlen_In {A : Type} (x : A) (l : list A) : In x l -> 1 <= qlen l.
Proof.
  destruct l as [|y l]; [intros []|]. intros _.
  rewrite qlen_cons. pose proof (qlen_nonneg l). lra.
Qed.

(* ===================================================================== *)
(** ** Weight renormalisation *)
(* ===================================================================== *)

Section Renorm.

Context {K : Type}.






End Renorm.








(* ===================================================================== *)
(** ** The overall score *)
(* ===================================================================== *)

Lemma factor_eqb_eq (a b : factor) : factor_eqb a b = true -> a = b.
Proof. destruct a, b; simpl; congruence. Qed.

Lemma dict_get_map_values {K : Type} (eqb : K -> K -> bool) (g : K -> Q -> Q)
      (d : dict K) (k : K) :
  (forall a b, eqb a b = true -> a = b) ->
  dict_get eqb (map (fun kv => (fst kv, g (fst kv) (snd kv))) d) k
  = option_map (g k) (dict_get eqb d k).
Proof.
  intros Heq. induction d as [|[k' v] d IH]; simpl.
  - reflexivity.
  - destruct (eqb k' k) eqn:E.
    + apply Heq in E. now subst.
    + exact IH.
Qed.

Lemma zero_unavailable_sum_const {K : Type} (d : dict K) (available : K -> bool) (c : Q) :
  Forall (fun kv => snd kv == c) d ->
  sum_values (zero_unavailable d available) == c * qlen (filter available (keys d)).
Proof.
  unfold sum_values, zero_unavailable, keys. rewrite map_map.
  induction 1 as [|kv d Hkv _ IH]; simpl map.
  - rewrite qsum_nil. change (qlen _) with 0. ring.
  - rewrite qsum_cons, IH. cbn [filter fst snd].
    destruct (available (fst kv)).
    + rewrite qlen_cons, Hkv. ring.
    + ring.
Qed.

Lemma STOCK_W_keys :
  keys STOCK_W = [pe_vs_sector; financial_health; valuation; growth;
                  management; moat; risk; dividend].
Proof. reflexivity. Qed.

Lemma STOCK_W_values : Forall (fun kv => snd kv == 0.125) STOCK_W.
Proof. vm_compute. repeat constructor. Qed.

Lemma STOCK_W_get (k : factor) :
  exists c, dict_get factor_eqb STOCK_W k = Some c /\ c == 0.125.
Proof.
  destruct k; eexists; (split; [reflexivity | vm_compute; reflexivity]).
Qed.

(** Every subscript [w[k]] of [score_stock] finds its key. *)
Lemma derived_weights_has_key (sc : factor -> pyfloat) (k : factor) :
  dict_get factor_eqb (derived_weights sc) k <> None.
Proof.
  unfold derived_weights, renorm_weights, zero_unavailable.
  rewrite (dict_get_map_values factor_eqb
             (fun _ v => if Qltb 0 _ then v / _ else 0) _ k factor_eqb_eq).
  rewrite (dict_get_map_values factor_eqb
             (fun k v => if negb (isnan (sc k)) then v else 0) _ k factor_eqb_eq).
  destruct (STOCK_W_get k) as (c & -> & _). discriminate.
Qed.

(** A renormalised weight after the unavailable keys are zeroed. *)
Lemma item_renorm_zero_unavailable {K : Type} (eqb : K -> K -> bool)
      (d : dict K) (available : K -> bool) (k : K) (c : Q) :
  (forall a b, eqb a b = true -> a = b) ->
  dict_get eqb d k = Some c ->
  0 < sum_values (zero_unavailable d available) ->
  item eqb (renorm_weights (zero_unavailable d available)) k ==
    if available k then c / sum_values (zero_unavailable d available) else 0.
Proof.
  intros Heq Hget Hs. unfold item, renorm_weights.
  generalize dependent (sum_values (zero_unavailable d available)). intros s Hs.
  rewrite (dict_get_map_values eqb (fun _ v => if Qltb 0 s then v / s else 0) _ k Heq).
  unfold zero_unavailable.
  rewrite (dict_get_map_values eqb (fun k v => if available k then v else 0) _ k Heq).
  rewrite Hget. cbn [option_map].
  destruct (Qltb_spec 0 s); [|tauto].
  destruct (available k).
  - reflexivity.
  - unfold Qdiv. ring.
Qed.

(** The derived weight of a factor: the nominal weight over the sum of
    the remaining ones when its sub-score is defined, zero otherwise. *)
Lemma derived_weights_item (sc : factor -> pyfloat) (k : factor) :
  0 < sum_values (zero_unavailable STOCK_W (fun k => negb (isnan (sc k)))) ->
  item factor_eqb (derived_weights sc) k ==
    if isnan (sc k) then 0
    else 0.125 / sum_values (zero_unavailable STOCK_W (fun k => negb (isnan (sc k)))).
Proof.
  intros Hs. unfold derived_weights.
  destruct (STOCK_W_get k) as (c & Hget & Hc).
  rewrite (item_renorm_zero_unavailable factor_eqb STOCK_W _ k c factor_eqb_eq Hget Hs).
  destruct (isnan (sc k)); cbn [negb].
  - reflexivity.
  - now rewrite Hc.
Qed.

Lemma val_in_range (x : pyfloat) : in_range x -> 0 <= val x /\ val x <= 10.
Proof. destruct x; simpl; [lra | tauto]. Qed.

Lemma isnan_false_fin (x : pyfloat) : isnan x = false -> x = Fin (val x).
Proof. destruct x; simpl; [discriminate | reflexivity]. Qed.

(** With its sub-scores in range and the management one defined, the
    overall score before rounding is the mean of the defined sub-scores. *)
Lemma stock_overall_mean (sc : factor -> pyfloat) :
  (forall k, in_range (sc k)) ->
  isnan (sc management) = false ->
  exists q,
    stock_overall sc = Fin q /\
    q == qsum (map (fun k => val (sc k))
                   (filter (fun k => negb (isnan (sc k))) (keys STOCK_W)))
         / qlen (filter (fun k => negb (isnan (sc k))) (keys STOCK_W)) /\
    0 <= q /\ q <= 10.
Proof.
  intros Hrange Hman.
  set (av := fun k => negb (isnan (sc k))).
  set (ks := filter av (keys STOCK_W)).
  set (s := sum_values (zero_unavailable STOCK_W av)).
  assert (Hn : 1 <= qlen ks).
  { apply (qlen_In management). apply filter_In. split.
    - rewrite STOCK_W_keys. simpl. tauto.
    - unfold av. now rewrite Hman. }
  assert (Es : s == 0.125 * qlen ks)
    by (apply zero_unavailable_sum_const, STOCK_W_values).
  assert (Hs : 0 < s) by lra.
  assert (Hks : forall k, In k ks -> isnan (sc k) = false).
  { intros k Hk. apply filter_In in Hk. destruct Hk as [_ Hk].
    unfold av in Hk. now destruct (isnan (sc k)). }
  exists (qsum (map (fun k => item factor_eqb (derived_weights sc) k * val (sc k)) ks)).
  assert (Emean :
    qsum (map (fun k => item factor_eqb (derived_weights sc) k * val (sc k)) ks)
    == qsum (map (fun k => val (sc k)) ks) / qlen ks).
  { rewrite (qsum_scale _ _ (0.125 / s)).
    - rewrite Es. field. lra.
    - intros k Hk. rewrite (derived_weights_item sc k Hs).
      rewrite (Hks k Hk). reflexivity. }
  destruct (qsum_bounds (fun k => val (sc k)) ks) as [B0 B10].
  { intros k _. apply val_in_range, Hrange. }
  split; [|split; [exact Emean|]].
  - unfold stock_overall, overall_terms. fold av. fold ks.
    rewrite <- fsum_finite, map_map. f_equal.
    apply map_ext_in. intros k Hk.
    rewrite (isnan_false_fin (sc k) (Hks k Hk)) at 1. reflexivity.
  - rewrite Emean. split.
    + apply Qle_shift_div_l; lra.
    + apply Qle_shift_div_r; lra.
Qed.







(* ===================================================================== *)
(** ** Further properties: clipping, safe division, classifier *)
(* ===================================================================== *)

(** X1.  [zclip] is a projection onto [[0,10]]: clipping twice is clipping
    once, a value of [[0,10]] is left as it is, a value below 0 becomes 0
    and a value above 10 becomes 10; [None] and not-a-number give
    not-a-number. *)
Theorem zclip_projection :
  forall (x : option pyfloat) (q : Q),
    zclip (Some (zclip x)) = zclip x /\
    (0 <= q /\ q <= 10 -> feq (zclip (Some (Fin q))) (Fin q)) /\
    (q <= 0 -> feq (zclip (Some (Fin q))) (Fin 0)) /\
    (10 <= q -> feq (zclip (Some (Fin q))) (Fin 10)) /\
    zclip None = NaN /\ zclip (Some NaN) = NaN.
Proof.
  intros x q. repeat split.
  - destruct x as [[|v]|]; try reflexivity.
    unfold zclip, zclip_range, pymax, pymin. f_equal.
    destruct (Qltb v 10) eqn:E1; [destruct (Qltb 0 v) eqn:E2|];
      cbv iota; rewrite ?E1, ?E2; reflexivity.
  - intros [H0 H10]. simpl. unfold pymax, pymin.
    destruct (Qltb_spec q 10); [destruct (Qltb_spec 0 q)|destruct (Qltb_spec 0 10)]; lra.
  - intros H0. simpl. unfold pymax, pymin.
    destruct (Qltb_spec q 10); [destruct (Qltb_spec 0 q)|destruct (Qltb_spec 0 10)]; lra.
  - intros H10. simpl. unfold pymax, pymin.
    destruct (Qltb_spec q 10); [destruct (Qltb_spec 0 q)|destruct (Qltb_spec 0 10)]; lra.
Qed.

(** X2.  [zclip] is monotone: a larger value never gets a smaller clipped
    score. *)
Theorem zclip_monotone :
  forall q1 q2 : Q,
    q1 <= q2 ->
    val (zclip (Some (Fin q1))) <= val (zclip (Some (Fin q2))).
Proof.
  intros q1 q2 H. simpl. rewrite !pyclip_clamp. unfold clamp.
  apply Q.max_le_compat_l. apply Q.min_le_compat_l. exact H.
Qed.

Lemma zclip_monotone_witness :
  val (zclip (Some (Fin 3))) <= val (zclip (Some (Fin 12))).
Proof. apply zclip_monotone. discriminate. Defined.

(** X3.  With explicit bounds, [zclip(x, lo, hi)] lies in [[lo,hi]] when
    [lo <= hi]; when the bounds are crossed ([hi < lo]) it is [lo] for
    every number. *)
Theorem zclip_range_bounds :
  forall lo hi q : Q,
    (lo <= hi ->
     exists v, zclip_range (Some (Fin q)) lo hi = Fin v /\ lo <= v /\ v <= hi) /\
    (hi < lo -> zclip_range (Some (Fin q)) lo hi = Fin lo).
Proof.
  intros lo hi q. split.
  - intros H. eexists. split; [reflexivity|]. now apply pyclip_bounds.
  - intros H. simpl. unfold pymax, pymin. f_equal.
    destruct (Qltb_spec q hi); match goal with
      | |- context [Qltb ?a ?b] => destruct (Qltb_spec a b) end;
      try reflexivity; exfalso; lra.
Qed.

(** X4.  [safe_div(a, b, default)] answers [default] when [b] is [None]
    or zero and when [a] is [None]; it never divides by zero.  For numbers
    [a] and [b] with [b] not zero it answers the quotient: multiplied by
    [b] it gives [a] back. *)
Theorem safe_div_cases :
  forall (a b : option pyfloat) (default : pyfloat),
    (b = None -> safe_div a b default = default) /\
    (forall y, b = Some (Fin y) -> y == 0 -> safe_div a b default = default) /\
    (a = None -> safe_div a b default = default) /\
    (forall x y, a = Some (Fin x) -> b = Some (Fin y) -> ~ y == 0 ->
       exists q, safe_div a b default = Fin q /\ q * y == x) /\
    (b = Some NaN -> a <> None -> safe_div a b default = NaN).
Proof.
  intros a b default. repeat split.
  - intros ->. reflexivity.
  - intros y -> Hy. unfold safe_div. rewrite truthy_fin.
    destruct (qtruthy_spec y); tauto.
  - intros ->. unfold safe_div. destruct b as [bv|]; [destruct (truthy _)|]; reflexivity.
  - intros x y -> -> Hy. unfold safe_div. rewrite truthy_fin.
    destruct (qtruthy_spec y); [|tauto].
    eexists. split; [reflexivity|]. field. exact Hy.
  - intros -> Ha. destruct a as [[|x]|]; [reflexivity | reflexivity | tauto].
Qed.

(** X5.  An undefined (not-a-number) overall score is classified
    [Sell/Avoid] whatever the thresholds, and so is every score when both
    thresholds are not-a-number: each comparison with not-a-number is
    false. *)
Theorem reco_nan_sell :
  forall x buy_thr hold_thr : pyfloat,
    reco NaN buy_thr hold_thr = "Sell/Avoid"%string /\
    reco x NaN NaN = "Sell/Avoid"%string.
Proof.
  intros x b h. split.
  - reflexivity.
  - unfold reco, fge. destruct x; reflexivity.
Qed.

Lemma reco_values (x b h : pyfloat) :
  reco x b h = "Buy"%string \/ reco x b h = "Hold"%string \/
  reco x b h = "Sell/Avoid"%string.
Proof. unfold reco. destruct (fge x b); [|destruct (fge x h)]; auto. Qed.

(** X6.  The classifier is monotone in the overall score, for any pair of
    thresholds: a higher score never gets a worse recommendation (in the
    order Sell/Avoid, Hold, Buy). *)
Theorem reco_monotone :
  forall q1 q2 b h : Q,
    q1 <= q2 ->
    (reco_rank (reco (Fin q1) (Fin b) (Fin h))
     <= reco_rank (reco (Fin q2) (Fin b) (Fin h)))%nat.
Proof.
  intros q1 q2 b h H. unfold reco, fge.
  destruct (Qle_bool b q1) eqn:E1; destruct (Qle_bool b q2) eqn:E2;
    destruct (Qle_bool h q1) eqn:E3; destruct (Qle_bool h q2) eqn:E4;
    try (vm_compute; lia);
    repeat match goal with
           | H : Qle_bool _ _ = true |- _ => apply Qle_bool_iff in H
           | H : Qle_bool ?a ?b = false |- _ =>
               assert (~ a <= b) by (rewrite <- Qle_bool_iff; congruence); clear H
           end; exfalso; lra.
Qed.

Lemma reco_monotone_witness :
  (reco_rank (reco (Fin 5) (Fin 8) (Fin 6))
   <= reco_rank (reco (Fin 7) (Fin 8) (Fin 6)))%nat.
Proof. apply reco_monotone. discriminate. Defined.

(** X7.  The two thresholds are not checked against each other: when the
    buy threshold is at or below the hold threshold, no score is ever
    classified [Hold]. *)
Theorem reco_crossed_thresholds_no_hold :
  forall q b h : Q,
    b <= h ->
    reco (Fin q) (Fin b) (Fin h) <> "Hold"%string.
Proof.
  intros q b h H. unfold reco, fge.
  destruct (Qle_bool b q) eqn:E1; [discriminate|].
  destruct (Qle_bool h q) eqn:E2; [|discriminate].
  apply Qle_bool_iff in E2.
  assert (~ b <= q) by (rewrite <- Qle_bool_iff; congruence). lra.
Qed.

Lemma reco_crossed_thresholds_no_hold_witness :
  reco (Fin 7) (Fin 6) (Fin 8) <> "Hold"%string.
Proof. apply reco_crossed_thresholds_no_hold. discriminate. Defined.

(* ===================================================================== *)
(** ** Further properties: weight renormalisation *)
(* ===================================================================== *)

Lemma qsum_member_le (v : Q) (l : list Q) :
  Forall (fun x => 0 <= x) l -> In v l -> v <= qsum l.
Proof.
  induction 1 as [|x l Hx Hl IH]; intros Hin; [destruct Hin|].
  rewrite qsum_cons. destruct Hin as [-> | Hin].
  - pose proof (qsum_nonneg l Hl). lra.
  - specialize (IH Hin). lra.
Qed.

(** X10.  For non-negative weights, every renormalised weight lies
    between 0 and 1. *)
Theorem renorm_weights_unit_interval :
  forall (K : Type) (d : dict K),
    Forall (fun kv => 0 <= snd kv) d ->
    Forall (fun kv => 0 <= snd kv /\ snd kv <= 1) (renorm_weights d).
Proof.
  intros K d Hnn. unfold renorm_weights. apply Forall_forall.
  intros kv Hin. apply in_map_iff in Hin. destruct Hin as ([k v] & <- & Hin).
  cbn [fst snd].
  destruct (Qltb_spec 0 (sum_values d)) as [Hs | Hs]; [|split; lra].
  assert (H0 : 0 <= v) by (rewrite Forall_forall in Hnn; apply (Hnn (k, v) Hin)).
  assert (Hle : v <= sum_values d).
  { apply qsum_member_le.
    - apply Forall_map. exact Hnn.
    - apply in_map_iff. exists (k, v). split; [reflexivity | exact Hin]. }
  split.
  - apply Qle_shift_div_l; lra.
  - apply Qle_shift_div_r; lra.
Qed.

Lemma renorm_weights_unit_interval_witness :
  Forall (fun kv => 0 <= snd kv /\ snd kv <= 1)
         (renorm_weights [(management, 0.2); (moat, 0.6)]).
Proof.
  apply renorm_weights_unit_interval.
  repeat constructor; discriminate.
Defined.

(* ===================================================================== *)
(** ** Further properties: the sub-scores *)
(* ===================================================================== *)

Lemma clamp_monotone (x y : Q) : x <= y -> clamp x <= clamp y.
Proof.
  intros H. unfold clamp. apply Q.max_le_compat_l, Q.min_le_compat_l, H.
Qed.

Lemma clamp_low (x : Q) : x <= 0 -> clamp x == 0.
Proof.
  intros H. unfold clamp. rewrite (Q.min_r 10 x) by lra. apply Q.max_l. exact H.
Qed.

Lemma clamp_high (x : Q) : 10 <= x -> clamp x == 10.
Proof.
  intros H. unfold clamp. rewrite (Q.min_l 10 x) by lra. apply Q.max_r. lra.
Qed.

Lemma clamp_id (x : Q) : 0 <= x -> x <= 10 -> clamp x == x.
Proof.
  intros H0 H10. unfold clamp. rewrite (Q.min_r 10 x) by lra. apply Q.max_r. exact H0.
Qed.

(** The price/earnings score for a usable price/earnings ratio and a
    non-zero median. *)
Lemma score_pe_usable (med : medians) (m : metrics) (x : Q) :
  pe m = Some (Fin x) -> ~ x == 0 -> ~ PE med == 0 ->
  feq (score_pe_vs_sector med m) (Fin (clamp (5 + 5 * (PE med / x - 1)))).
Proof.
  intros Hpe Hx Hm. unfold score_pe_vs_sector. rewrite Hpe, truthy_fin.
  destruct (qtruthy_spec x); [|tauto].
  destruct (qtruthy_spec (PE med)); [|tauto].
  cbn [andb fadd fsub fmul fdiv lift2]. apply zclip_fin.
Qed.

(** X11.  A price/earnings ratio equal to the sector median scores exactly
    5 on [pe_vs_sector]; and when price/sales and price/free-cash-flow are
    absent, the valuation factor is 5 as well. *)
Theorem pe_at_median_scores_five :
  forall (med : medians) (m : metrics) (x : Q),
    pe m = Some (Fin x) -> x == PE med -> ~ x == 0 ->
    feq (score_pe_vs_sector med m) (Fin 5) /\
    (ps m = None -> pfcf m = None -> feq (score_valuation med m) (Fin 5)).
Proof.
  intros med m x Hpe Ex Hx.
  assert (Hm : ~ PE med == 0) by (rewrite <- Ex; exact Hx).
  assert (E5 : clamp (5 + 5 * (PE med / x - 1)) == 5).
  { assert (E : 5 + 5 * (PE med / x - 1) == 5) by (rewrite <- Ex; field; exact Hx).
    rewrite E. apply clamp_id; lra. }
  split.
  - pose proof (score_pe_usable med m x Hpe Hx Hm) as H.
    destruct (score_pe_vs_sector med m); simpl in *; [tauto|]. now rewrite H.
  - intros Hps Hpf. unfold score_valuation, valuation_comp, comp_append.
    rewrite Hpe, Hps, Hpf, truthy_fin.
    destruct (qtruthy_spec x); [|tauto].
    destruct (qtruthy_spec (PE med)); [|tauto].
    cbn [andb app fadd fsub fmul fdiv lift2 nanmean finite_part].
    simpl. rewrite pyclip_clamp.
    assert (E : qsum [5 + 5 * (PE med / x - 1)] / inject_Z (Z.of_nat 1)
                == 5 + 5 * (PE med / x - 1)).
    { unfold qsum. simpl. field. exact Hx. }
    unfold qsum in E. simpl in E. rewrite E. exact E5.
Qed.

Lemma pe_at_median_scores_five_witness :
  feq (score_pe_vs_sector (default_medians US) example_bundle) (Fin 5).
Proof.
  refine (proj1 (pe_at_median_scores_five (default_medians US) example_bundle 18 _ _ _));
    [reflexivity | reflexivity | discriminate].
Defined.

(** X12.  With a positive sector median, [pe_vs_sector] is monotone in a
    positive price/earnings ratio: the cheaper of two stocks never gets the
    lower score. *)
Theorem pe_score_cheaper_not_lower :
  forall (med : medians) (m1 m2 : metrics) (x1 x2 : Q),
    0 < PE med ->
    pe m1 = Some (Fin x1) -> pe m2 = Some (Fin x2) ->
    0 < x1 -> x1 <= x2 ->
    val (score_pe_vs_sector med m2) <= val (score_pe_vs_sector med m1).
Proof.
  intros med m1 m2 x1 x2 HM H1 H2 Hx1 Hx12.
  assert (F1 := score_pe_usable med m1 x1 H1).
  assert (F2 := score_pe_usable med m2 x2 H2).
  destruct (score_pe_vs_sector med m1) as [|s1];
    [exfalso; apply F1; lra|].
  destruct (score_pe_vs_sector med m2) as [|s2];
    [exfalso; apply F2; lra|].
  simpl in *. rewrite F1, F2 by lra.
  apply clamp_monotone.
  assert (Hdiv : PE med / x2 <= PE med / x1).
  { apply Qle_shift_div_l; [exact Hx1|].
    assert (E : PE med / x2 * x1 == (PE med * x1) / x2) by (field; lra).
    rewrite E. apply Qle_shift_div_r; [lra | nra]. }
  lra.
Qed.

Lemma pe_score_cheaper_not_lower_witness :
  val (score_pe_vs_sector (default_medians US) example_bundle)
  <= val (score_pe_vs_sector (default_medians US) cheap_pe_bundle).
Proof.
  apply (pe_score_cheaper_not_lower (default_medians US) cheap_pe_bundle example_bundle
           1.8 18); try reflexivity. discriminate.
Defined.

(** X13.  With a positive sector median, a negative price/earnings ratio
    (negative earnings) scores 0 on [pe_vs_sector], and a positive ratio of
    at most half the median scores 10. *)
Theorem pe_score_extremes :
  forall (med : medians) (m : metrics) (x : Q),
    0 < PE med -> pe m = Some (Fin x) ->
    (x < 0 -> feq (score_pe_vs_sector med m) (Fin 0)) /\
    (0 < x -> 2 * x <= PE med -> feq (score_pe_vs_sector med m) (Fin 10)).
Proof.
  intros med m x HM Hpe.
  assert (F := score_pe_usable med m x Hpe).
  destruct (score_pe_vs_sector med m) as [|s]; simpl in *.
  - split; intros; apply F; lra.
  - split.
    + intros Hx. rewrite F by lra. apply clamp_low.
      assert (E : PE med / x == - (PE med / - x)) by (field; lra).
      assert (0 < PE med / - x) by (apply Qlt_shift_div_l; lra).
      lra.
    + intros Hx H2. rewrite F by lra. apply clamp_high.
      assert (2 <= PE med / x) by (apply Qle_shift_div_l; lra).
      lra.
Qed.

Lemma pe_score_extremes_witness :
  feq (score_pe_vs_sector (default_medians US) cheap_pe_bundle) (Fin 10).
Proof.
  apply (pe_score_extremes (default_medians US) cheap_pe_bundle 1.8);
    try reflexivity. discriminate.
Defined.

(** X14.  The financial-health score is undefined when price/book is
    [None], zero or not-a-number, and [10 - |price/book - 3|*2] clamped
    into [[0,10]] otherwise: 10 exactly at a price/book of 3, and 0 from a
    distance of 5 on. *)
Theorem financial_health_cases :
  forall m : metrics,
    match pb m with
    | None => score_financial_health m = NaN
    | Some NaN => score_financial_health m = NaN
    | Some (Fin x) =>
        (x == 0 -> score_financial_health m = NaN) /\
        (~ x == 0 ->
         feq (score_financial_health m) (Fin (clamp (10 - Qabs (x - 3) * 2)))) /\
        (x == 3 -> feq (score_financial_health m) (Fin 10)) /\
        (5 <= Qabs (x - 3) -> ~ x == 0 -> feq (score_financial_health m) (Fin 0))
    end.
Proof.
  intros m. unfold score_financial_health, or_else.
  destruct (pb m) as [[|x]|]; try reflexivity.
  rewrite truthy_fin.
  assert (F : ~ x == 0 ->
              feq (if qtruthy x
                   then zclip (Some (Fin 10 - fabs ((if qtruthy x then Fin x else Fin 3) - Fin 3)
                                      * Fin 2)%F)
                   else NaN)
                  (Fin (clamp (10 - Qabs (x - 3) * 2)))).
  { intros Hx. destruct (qtruthy_spec x); [|tauto]. apply zclip_fin. }
  split; [|split; [exact F|split]].
  - intros Hx. destruct (qtruthy_spec x); [tauto | reflexivity].
  - intros E3. assert (Hx : ~ x == 0) by lra. specialize (F Hx).
    destruct (qtruthy x); [|exact F].
    destruct (zclip _); cbn [feq] in *; [tauto|]. rewrite F.
    assert (Qabs (x - 3) <= 0) by (apply Qabs_Qle_condition; split; lra).
    apply clamp_high. lra.
  - intros H5 Hx. specialize (F Hx).
    destruct (qtruthy x); [|exact F].
    destruct (zclip _); cbn [feq] in *; [tauto|]. rewrite F.
    apply clamp_low. lra.
Qed.

(** X15.  The dividend score saturates: a yield of 6% or more scores 10,
    a yield that is zero or negative scores 0, and between two numeric
    yields the larger never scores lower. *)
Theorem dividend_score_saturation :
  forall (m1 m2 : metrics) (y1 y2 : Q),
    div_yield m1 = Some (Fin y1) -> div_yield m2 = Some (Fin y2) ->
    (0.06 <= y1 -> feq (score_dividend m1) (Fin 10)) /\
    (y1 <= 0 -> feq (score_dividend m1) (Fin 0)) /\
    (y1 <= y2 -> val (score_dividend m1) <= val (score_dividend m2)).
Proof.
  intros m1 m2 y1 y2 H1 H2. unfold score_dividend. rewrite H1, H2.
  cbn [fmul fdiv lift2 zclip zclip_range feq val].
  rewrite !pyclip_clamp.
  assert (E : forall y, y * 100 / 0.6 == y * (500 # 3)) by (intros y; field).
  rewrite !E. repeat split.
  - intros H. apply clamp_high. lra.
  - intros H. apply clamp_low. lra.
  - intros H. apply clamp_monotone. lra.
Qed.

Lemma dividend_score_saturation_witness :
  feq (score_dividend zero_yield_bundle) (Fin 0).
Proof.
  apply (dividend_score_saturation zero_yield_bundle example_bundle 0 0.02);
    try reflexivity. discriminate.
Defined.

(* ===================================================================== *)
(** ** Further properties: reference medians and availability *)
(* ===================================================================== *)

Lemma option_eq_dec_string (a b : option string) : {a = b} + {a <> b}.
Proof. decide equality. apply string_dec. Qed.

Lemma sector_or_default_technology (m : metrics) :
  String.eqb "Technology" (sector_or_default m) = true <-> sector m = Some "Technology"%string.
Proof.
  unfold sector_or_default. destruct (sector m) as [s|].
  - destruct (String.eqb_spec s "") as [-> | Hne].
    + split; discriminate.
    + rewrite String.eqb_eq. split; [intros <-; reflexivity | now intros [= <-]].
  - split; discriminate.
Qed.

(** X16.  The medians of a stock are those of the Technology sector of
    its market when its sector is exactly [Technology], and the Default
    medians of its market for every other sector, for an empty sector and
    for a missing one; the lookup never fails, and every median it returns
    is positive. *)
Theorem stock_medians_fallback :
  forall (c : country) (m : metrics),
    (sector m = Some "Technology"%string ->
     stock_medians c m = match c with
                         | US => mk_medians 28 19 6 25
                         | India => mk_medians 30 20 7 28
                         end) /\
    (sector m <> Some "Technology"%string ->
     stock_medians c m = match c with
                         | US => mk_medians 18 12 2 18
                         | India => mk_medians 22 14 3 22
                         end) /\
    0 < PE (stock_medians c m) /\ 0 < EVEBITDA (stock_medians c m) /\
    0 < PS (stock_medians c m) /\ 0 < PFCF (stock_medians c m).
Proof.
  intros c m.
  assert (Ht : sector m = Some "Technology"%string ->
               stock_medians c m = match c with
                                   | US => mk_medians 28 19 6 25
                                   | India => mk_medians 30 20 7 28
                                   end).
  { intros H. apply sector_or_default_technology in H.
    unfold stock_medians. destruct c; cbn [SECTOR_MEDIANS table_get]; now rewrite H. }
  assert (Hd : sector m <> Some "Technology"%string ->
               stock_medians c m = match c with
                                   | US => mk_medians 18 12 2 18
                                   | India => mk_medians 22 14 3 22
                                   end).
  { intros H. rewrite <- sector_or_default_technology in H.
    unfold stock_medians. destruct c; cbn [SECTOR_MEDIANS table_get];
      destruct (String.eqb "Technology" (sector_or_default m)); try tauto;
      destruct (String.eqb "Default" (sector_or_default m)); reflexivity. }
  split; [exact Ht|]. split; [exact Hd|].
  destruct (option_eq_dec_string (sector m) (Some "Technology"%string)) as [E | E];
    [rewrite (Ht E) | rewrite (Hd E)]; destruct c; repeat split.
Qed.

Lemma stock_medians_truthy (c : country) (m : metrics) :
  qtruthy (PE (stock_medians c m)) = true /\
  qtruthy (PS (stock_medians c m)) = true /\
  qtruthy (PFCF (stock_medians c m)) = true.
Proof.
  destruct (stock_medians_fallback c m) as (_ & _ & H1 & _ & H2 & H3).
  repeat split;
    match goal with |- qtruthy ?q = true => destruct (qtruthy_spec q); [reflexivity | lra] end.
Qed.

Lemma isnan_zclip_fin (q : Q) : isnan (zclip (Some (Fin q))) = false.
Proof. reflexivity. Qed.

(** X17.  Which sub-scores of a stock are defined, with the medians the
    program selects: [pe_vs_sector] and [financial_health] exactly when
    price/earnings (resp. price/book) is a number other than zero;
    [valuation] exactly when one of price/earnings, price/sales and
    price/free-cash-flow is; [growth] unless both returns are
    not-a-number; [risk] unless beta is not-a-number; [dividend] exactly
    when the yield is a number. *)
Theorem stock_scores_availability :
  forall (c : country) (m : metrics),
    isnan (score_pe_vs_sector (stock_medians c m) m) = negb (usable (pe m)) /\
    isnan (score_financial_health m) = negb (usable (pb m)) /\
    isnan (score_valuation (stock_medians c m) m)
      = negb (usable (pe m) || usable (ps m) || usable (pfcf m)) /\
    isnan (score_growth m)
      = match r_1y m, r_3y m with
        | Some NaN, Some NaN => true
        | _, _ => false
        end /\
    isnan (score_risk m) = match beta m with Some NaN => true | _ => false end /\
    isnan (score_dividend m) = negb (is_number (div_yield m)).
Proof.
  intros c m.
  destruct (stock_medians_truthy c m) as (T1 & T2 & T3).
  split; [|split; [|split; [|split; [|split]]]].
  - unfold score_pe_vs_sector. rewrite T1.
    destruct (pe m) as [[|x]|]; try reflexivity.
    rewrite truthy_fin. unfold qtruthy, usable.
    destruct (Qeq_bool x 0); reflexivity.
  - unfold score_financial_health, or_else.
    destruct (pb m) as [[|x]|]; try reflexivity.
    rewrite truthy_fin. unfold qtruthy, usable.
    destruct (Qeq_bool x 0); reflexivity.
  - unfold score_valuation, valuation_comp, comp_append. rewrite T1, T2, T3.
    destruct (pe m) as [[|x]|], (ps m) as [[|y]|], (pfcf m) as [[|z]|];
      rewrite ?truthy_fin; unfold qtruthy, usable;
      repeat match goal with
             | |- context [Qeq_bool ?q 0] => destruct (Qeq_bool q 0)
             end; reflexivity.
  - unfold score_growth, or_else.
    destruct (r_1y m) as [[|x]|], (r_3y m) as [[|y]|];
      rewrite ?truthy_fin; unfold qtruthy;
      repeat match goal with
             | |- context [Qeq_bool ?q 0] => destruct (Qeq_bool q 0)
             end; reflexivity.
  - unfold score_risk, or_else.
    destruct (beta m) as [[|x]|]; rewrite ?truthy_fin; unfold qtruthy;
      repeat match goal with
             | |- context [Qeq_bool ?q 0] => destruct (Qeq_bool q 0)
             end; reflexivity.
  - unfold score_dividend. destruct (div_yield m) as [[|y]|]; reflexivity.
Qed.

(* ===================================================================== *)
(** ** Further properties: the overall score *)
(* ===================================================================== *)

(** The factors of a bundle whose sub-score is defined. *)
Lemma defined_factors_count (sc : factor -> pyfloat) :
  isnan (sc management) = false ->
  1 <= qlen (filter (fun k => negb (isnan (sc k))) (keys STOCK_W)) /\
  sum_values (zero_unavailable STOCK_W (fun k => negb (isnan (sc k))))
  == 0.125 * qlen (filter (fun k => negb (isnan (sc k))) (keys STOCK_W)).
Proof.
  intros Hman. split.
  - apply (qlen_In management). apply filter_In. split.
    + rewrite STOCK_W_keys. simpl. tauto.
    + now rewrite Hman.
  - apply zero_unavailable_sum_const, STOCK_W_values.
Qed.

(** X18.  The weights [score_stock] derives are equal shares: with [n]
    defined sub-scores, each defined factor weighs [1/n] and each
    undefined one 0; the overall score before rounding is the plain mean
    of the defined sub-scores. *)
Theorem stock_overall_is_mean :
  forall (med : medians) (m : metrics),
    (forall k,
       item factor_eqb (derived_weights (stock_scores med m)) k ==
       if isnan (stock_scores med m k) then 0
       else 1 / qlen (filter (fun k => negb (isnan (stock_scores med m k)))
                             (keys STOCK_W))) /\
    exists q,
      stock_overall (stock_scores med m) = Fin q /\
      q == qsum (map (fun k => val (stock_scores med m k))
                     (filter (fun k => negb (isnan (stock_scores med m k)))
                             (keys STOCK_W)))
           / qlen (filter (fun k => negb (isnan (stock_scores med m k)))
                          (keys STOCK_W)).
Proof.
  intros med m.
  destruct (defined_factors_count (stock_scores med m) eq_refl) as [Hn Es].
  split.
  - intros k. rewrite derived_weights_item by lra.
    destruct (isnan (stock_scores med m k)); [reflexivity|].
    rewrite Es. field. lra.
  - destruct (stock_overall_mean (stock_scores med m)) as (q & E & Em & _).
    + apply stock_scores_range.
    + reflexivity.
    + exists q. split; assumption.
Qed.

Lemma round_half_even_between (z1 z2 : Z) (x : Q) :
  inject_Z z1 <= x -> x <= inject_Z z2 ->
  (z1 <= round_half_even x <= z2)%Z.
Proof.
  intros H1 H2. unfold round_half_even.
  assert (Hf1 : (z1 <= Qfloor x)%Z).
  { rewrite <- (Qfloor_Z z1). now apply Qfloor_resp_le. }
  assert (Hf2 : (Qfloor x <= z2)%Z).
  { rewrite <- (Qfloor_Z z2). now apply Qfloor_resp_le. }
  pose proof (Qfloor_le x) as Hfl.
  assert (Hhalf : (1 # 2) <= x - inject_Z (Qfloor x) -> (Qfloor x + 1 <= z2)%Z).
  { intros Hh.
    assert (Hlt : inject_Z (Qfloor x) < inject_Z z2) by lra.
    rewrite <- Zlt_Qlt in Hlt. lia. }
  destruct (x - inject_Z (Qfloor x) ?= 1 # 2) eqn:E.
  - apply Qeq_alt in E. destruct (Z.even _); [lia|].
    split; [lia|]. apply Hhalf. lra.
  - lia.
  - apply Qgt_alt in E. split; [lia|]. apply Hhalf. lra.
Qed.

Lemma round_half_even_near (x : Q) :
  Qabs (inject_Z (round_half_even x) - x) <= 1 # 2.
Proof.
  unfold round_half_even.
  pose proof (Qfloor_le x) as Hlo.
  pose proof (Qlt_floor x) as Hhi.
  rewrite inject_Z_plus in Hhi. change (inject_Z 1) with 1 in Hhi.
  apply Qabs_Qle_condition.
  destruct (x - inject_Z (Qfloor x) ?= 1 # 2) eqn:E.
  - apply Qeq_alt in E. destruct (Z.even _).
    + split; lra.
    + rewrite inject_Z_plus. change (inject_Z 1) with 1. split; lra.
  - apply Qlt_alt in E. split; lra.
  - apply Qgt_alt in E. rewrite inject_Z_plus. change (inject_Z 1) with 1.
    split; lra.
Qed.

(** X19.  The overall score [score_stock] returns is the unrounded
    overall score rounded to a whole number of hundredths: the two differ
    by at most 0.005. *)
Theorem overall_rounding_accuracy :
  forall (c : country) (tkr : string) (m : metrics) (r : stock_rating),
    score_stock c tkr m = Returns r ->
    exists (q : Q) (z : Z),
      stock_overall (scores r) = Fin q /\
      overall r = Fin (inject_Z z / 100) /\
      Qabs (inject_Z z / 100 - q) <= 0.005.
Proof.
  intros c tkr m r H. unfold score_stock in H.
  destruct (r_1y m); [destruct (r_3y m)|]; try discriminate.
  injection H as <-. cbn [scores overall].
  destruct (stock_overall_mean (stock_scores (stock_medians c m) m))
    as (q & E & _).
  - apply stock_scores_range.
  - reflexivity.
  - exists q, (round_half_even (q * 100)). rewrite E. cbn [fround2].
    split; [reflexivity|]. split; [reflexivity|].
    pose proof (round_half_even_near (q * 100)) as Hn.
    apply Qabs_Qle_condition in Hn. apply Qabs_Qle_condition.
    assert (E1 : inject_Z (round_half_even (q * 100)) / 100 - q
                 == (inject_Z (round_half_even (q * 100)) - q * 100) / 100) by field.
    rewrite E1. split.
    + apply Qle_shift_div_l; lra.
    + apply Qle_shift_div_r; lra.
Qed.

Lemma overall_rounding_accuracy_witness :
  exists (q : Q) (z : Z),
    stock_overall (stock_scores (stock_medians US example_bundle) example_bundle) = Fin q /\
    fround2 (stock_overall (stock_scores (stock_medians US example_bundle) example_bundle))
      = Fin (inject_Z z / 100) /\
    Qabs (inject_Z z / 100 - q) <= 0.005.
Proof.
  exact (overall_rounding_accuracy US "" example_bundle _ eq_refl).
Defined.

(** Sums and counts over the defined factors, written over all the keys. *)
Lemma qsum_filter_indicator {A : Type} (av : A -> bool) (g : A -> Q) (l : list A) :
  qsum (map g (filter av l)) == qsum (map (fun k => if av k then g k else 0) l) /\
  qlen (filter av l) == qsum (map (fun k => if av k then 1 else 0) l).
Proof.
  induction l as [|k l [IH1 IH2]]; cbn [filter map].
  - split; [reflexivity|]. rewrite qsum_nil. reflexivity.
  - destruct (av k); cbn [map]; rewrite ?qlen_cons, !qsum_cons, <- ?IH1, <- ?IH2;
      split; ring.
Qed.

(** One term of each: a defined sub-score of [[0,10]] counts once, an
    undefined one not at all. *)
Lemma indicator_term_bounds (x : pyfloat) :
  in_range x ->
  let u := if negb (isnan x) then 1 else 0 in
  let t := if negb (isnan x) then val x else 0 in
  0 <= u /\ u <= 1 /\ 0 <= t /\ t <= 10 * u.
Proof.
  destruct x as [|q]; simpl; intros H; lra.
Qed.

(** The mean of the defined sub-scores when management and moat are 6 and
    the six others are undefined or lie in [[0,10]]. *)
Lemma stock_overall_floor_ceiling (med : medians) (m : metrics) :
  exists q,
    stock_overall (stock_scores med m) = Fin q /\ 1.5 <= q /\ q <= 9.
Proof.
  destruct (stock_overall_mean (stock_scores med m)) as (q & E & Em & _);
    [apply stock_scores_range | reflexivity |].
  exists q. split; [exact E|].
  destruct (defined_factors_count (stock_scores med m) eq_refl) as [Hn _].
  destruct (qsum_filter_indicator (fun k => negb (isnan (stock_scores med m k)))
              (fun k => val (stock_scores med m k)) (keys STOCK_W)) as [ES EN].
  revert Em Hn ES EN.
  generalize (qsum (map (fun k => val (stock_scores med m k))
                        (filter (fun k => negb (isnan (stock_scores med m k)))
                                (keys STOCK_W)))).
  generalize (qlen (filter (fun k => negb (isnan (stock_scores med m k)))
                           (keys STOCK_W))).
  intros N S Em Hn ES EN.
  rewrite STOCK_W_keys in ES, EN. cbn [map] in ES, EN.
  rewrite !qsum_cons, qsum_nil in ES, EN.
  pose proof (indicator_term_bounds _ (stock_scores_range med m pe_vs_sector)) as R1.
  pose proof (indicator_term_bounds _ (stock_scores_range med m financial_health)) as R2.
  pose proof (indicator_term_bounds _ (stock_scores_range med m valuation)) as R3.
  pose proof (indicator_term_bounds _ (stock_scores_range med m growth)) as R4.
  pose proof (indicator_term_bounds _ (stock_scores_range med m risk)) as R5.
  pose proof (indicator_term_bounds _ (stock_scores_range med m dividend)) as R6.
  cbv zeta in R1, R2, R3, R4, R5, R6.
  change (stock_scores med m management) with (Fin 6) in ES, EN.
  change (stock_scores med m moat) with (Fin 6) in ES, EN.
  cbn [isnan negb val] in ES, EN.
  rewrite Em. split.
  - apply Qle_shift_div_l; lra.
  - apply Qle_shift_div_r; lra.
Qed.

Lemma overall_range_of_rating (c : country) (tkr : string) (m : metrics) (r : stock_rating) :
  score_stock c tkr m = Returns r ->
  exists q, overall r = Fin q /\ 1.5 <= q /\ q <= 9.
Proof.
  intros H. unfold score_stock in H.
  destruct (r_1y m); [destruct (r_3y m)|]; try discriminate.
  injection H as <-.
  destruct (stock_overall_floor_ceiling (stock_medians c m) m) as (q & E & H1 & H2).
  cbn [overall]. rewrite E. cbn [fround2]. exists (round2 q). split; [reflexivity|].
  unfold round2.
  destruct (round_half_even_between 150 900 (q * 100)) as [Z1 Z2].
  - change (inject_Z 150) with 150. lra.
  - change (inject_Z 900) with 900. lra.
  - rewrite Zle_Qle in Z1, Z2.
    change (inject_Z 150) with 150 in Z1. change (inject_Z 900) with 900 in Z2.
    split.
    + apply Qle_shift_div_l; lra.
    + apply Qle_shift_div_r; lra.
Qed.

(** X20.  Because management and moat are always 6, the overall score of
    a stock never leaves [[1.5, 9]], before and after rounding, whatever
    the bundle. *)
Theorem overall_between_floor_and_ceiling :
  forall (c : country) (tkr : string) (m : metrics),
    (exists q,
       stock_overall (stock_scores (stock_medians c m) m) = Fin q /\
       1.5 <= q /\ q <= 9) /\
    match score_stock c tkr m with
    | Returns r => exists q, overall r = Fin q /\ 1.5 <= q /\ q <= 9
    | RaisesTypeError => True
    end.
Proof.
  intros c tkr m.
  destruct (stock_overall_floor_ceiling (stock_medians c m) m) as (q & E & H1 & H2).
  split; [exists q; auto|].
  destruct (score_stock c tkr m) as [r|] eqn:Hr; [|exact I].
  exact (overall_range_of_rating c tkr m r Hr).
Qed.

(** X21.  Consequences for the recommendation of a rated stock: with a
    hold threshold of 1.5 or less it is never [Sell/Avoid], and with a buy
    threshold above 9 it is never [Buy]. *)
Theorem reco_unreachable_labels :
  forall (c : country) (tkr : string) (m : metrics) (r : stock_rating) (b h : Q),
    score_stock c tkr m = Returns r ->
    (h <= 1.5 -> reco (overall r) (Fin b) (Fin h) <> "Sell/Avoid"%string) /\
    (9 < b -> reco (overall r) (Fin b) (Fin h) <> "Buy"%string).
Proof.
  intros c tkr m r b h H.
  destruct (overall_range_of_rating c tkr m r H) as (q & -> & H1 & H2).
  unfold reco, fge. split.
  - intros Hh. destruct (Qle_bool b q); [discriminate|].
    destruct (Qle_bool h q) eqn:E; [discriminate|].
    exfalso. assert (~ h <= q) by (rewrite <- Qle_bool_iff; congruence). lra.
  - intros Hb. destruct (Qle_bool b q) eqn:E.
    + apply Qle_bool_iff in E. lra.
    + destruct (Qle_bool h q); discriminate.
Qed.

Lemma reco_unreachable_labels_witness :
  reco (fround2 (stock_overall (stock_scores (stock_medians US unknown_bundle) unknown_bundle)))
       (Fin 8) (Fin 1.5) <> "Sell/Avoid"%string.
Proof.
  refine (proj1 (reco_unreachable_labels US "" unknown_bundle _ 8 1.5 eq_refl) _).
  discriminate.
Defined.

(* ===================================================================== *)
(** ** Further properties: instrument detection *)
(* ===================================================================== *)

Lemma lstrip_as_list (s : string) :
  list_ascii_of_string (Str.lstrip s) = lstrip_list (list_ascii_of_string s).
Proof.
  induction s as [|c s IH]; simpl; [reflexivity|].
  destruct (Str.is_space c); [exact IH | reflexivity].
Qed.

Lemma strip_as_list (s : string) :
  list_ascii_of_string (Str.strip s)
  = List.rev (lstrip_list (List.rev (lstrip_list (list_ascii_of_string s)))).
Proof.
  unfold Str.strip, Str.rev.
  rewrite !list_ascii_of_string_of_list_ascii, lstrip_as_list.
  rewrite list_ascii_of_string_of_list_ascii, lstrip_as_list. reflexivity.
Qed.

Lemma lstrip_list_suffix (l : list ascii) :
  exists sp, l = sp ++ lstrip_list l.
Proof.
  induction l as [|c l [sp IH]]; simpl.
  - exists []. reflexivity.
  - destruct (Str.is_space c).
    + exists (c :: sp). simpl. now rewrite <- IH.
    + exists []. reflexivity.
Qed.

Lemma lstrip_list_head (l : list ascii) :
  match lstrip_list l with
  | [] => True
  | c :: _ => Str.is_space c = false
  end.
Proof.
  induction l as [|c l IH]; simpl; [exact I|].
  destruct (Str.is_space c) eqn:E; [exact IH | exact E].
Qed.

Lemma lstrip_list_fixed (l : list ascii) :
  match l with [] => True | c :: _ => Str.is_space c = false end ->
  lstrip_list l = l.
Proof. destruct l as [|c l]; simpl; [reflexivity|]. now intros ->. Qed.

(** Stripping a stripped list of characters changes nothing. *)
Lemma strip_list_idempotent (l : list ascii) :
  let t := List.rev (lstrip_list (List.rev (lstrip_list l))) in
  List.rev (lstrip_list (List.rev (lstrip_list t))) = t.
Proof.
  intros t. subst t.
  set (a := lstrip_list l).
  set (b := lstrip_list (List.rev a)).
  assert (Ha := lstrip_list_head l). fold a in Ha.
  assert (Hb := lstrip_list_head (List.rev a)). fold b in Hb.
  destruct (lstrip_list_suffix (List.rev a)) as [sp Hsp]. fold b in Hsp.
  assert (Hrb : match List.rev b with [] => True | c :: _ => Str.is_space c = false end).
  { assert (Ea : a = List.rev b ++ List.rev sp).
    { rewrite <- rev_app_distr, <- Hsp. now rewrite rev_involutive. }
    destruct (List.rev b) as [|c r]; [exact I|].
    rewrite Ea in Ha. exact Ha. }
  rewrite (lstrip_list_fixed (List.rev b) Hrb), rev_involutive.
  now rewrite (lstrip_list_fixed b Hb).
Qed.

Lemma strip_idempotent (s : string) : Str.strip (Str.strip s) = Str.strip s.
Proof.
  rewrite <- (string_of_list_ascii_of_string (Str.strip (Str.strip s))).
  rewrite <- (string_of_list_ascii_of_string (Str.strip s)) at 2.
  f_equal. rewrite strip_as_list. rewrite (strip_as_list s).
  apply strip_list_idempotent.
Qed.

Lemma upper_char_facts (c : ascii) :
  Str.upper_char (Str.upper_char c) = Str.upper_char c /\
  Str.is_space (Str.upper_char c) = Str.is_space c.
Proof.
  destruct c as [[] [] [] [] [] [] [] []]; split; reflexivity.
Qed.

Lemma upper_as_list (s : string) :
  list_ascii_of_string (Str.upper s) = map Str.upper_char (list_ascii_of_string s).
Proof. induction s as [|c s IH]; simpl; [reflexivity | now rewrite IH]. Qed.

Lemma lstrip_list_upper (l : list ascii) :
  lstrip_list (map Str.upper_char l) = map Str.upper_char (lstrip_list l).
Proof.
  induction l as [|c l IH]; simpl; [reflexivity|].
  rewrite (proj2 (upper_char_facts c)).
  destruct (Str.is_space c); [exact IH | reflexivity].
Qed.

Lemma strip_upper (s : string) : Str.strip (Str.upper s) = Str.upper (Str.strip s).
Proof.
  rewrite <- (string_of_list_ascii_of_string (Str.strip (Str.upper s))).
  rewrite <- (string_of_list_ascii_of_string (Str.upper (Str.strip s))).
  f_equal. rewrite strip_as_list, !upper_as_list, strip_as_list.
  now rewrite lstrip_list_upper, <- map_rev, lstrip_list_upper, <- map_rev.
Qed.

Lemma upper_idempotent (s : string) : Str.upper (Str.upper s) = Str.upper s.
Proof.
  induction s as [|c s IH]; simpl; [reflexivity|].
  now rewrite IH, (proj1 (upper_char_facts c)).
Qed.

Lemma detect_by_normalised (a b : string) :
  normalise a = normalise b ->
  detect_country_and_type a = detect_country_and_type b.
Proof.
  intros E. rewrite !detect_country_and_type_cases. cbv zeta.
  fold (normalise a). fold (normalise b). now rewrite E.
Qed.

Lemma normalise_idempotent (s : string) : normalise (normalise s) = normalise s.
Proof.
  unfold normalise. now rewrite strip_upper, upper_idempotent, strip_idempotent.
Qed.

(** X22.  Detection depends on the raw code only through its stripped,
    upper-case form: it is insensitive to letter case and to surrounding
    white space, and detecting the code it returns gives the same answer
    again. *)
Theorem detect_insensitive_and_stable :
  forall code_raw : string,
    detect_country_and_type (Str.upper code_raw) = detect_country_and_type code_raw /\
    detect_country_and_type (Str.strip code_raw) = detect_country_and_type code_raw /\
    detect_country_and_type (snd (detect_country_and_type code_raw))
      = detect_country_and_type code_raw /\
    snd (detect_country_and_type code_raw) = Str.upper (Str.strip code_raw).
Proof.
  intros code_raw.
  assert (Hsnd : snd (detect_country_and_type code_raw) = normalise code_raw).
  { rewrite detect_country_and_type_cases. cbv zeta. fold (normalise code_raw).
    repeat match goal with |- context [if ?b then _ else _] => destruct b end;
      reflexivity. }
  repeat split.
  - apply detect_by_normalised. unfold normalise.
    now rewrite strip_upper, upper_idempotent.
  - apply detect_by_normalised. unfold normalise. now rewrite strip_idempotent.
  - rewrite Hsnd. apply detect_by_normalised, normalise_idempotent.
  - exact Hsnd.
Qed.

(** X23.  What detection can answer: an ETF is always an India ETF whose
    code ends in [BEES] and has no exchange prefix, so no US code is ever
    detected as an ETF; a mutual fund is an India one exactly when its code
    starts with [INF], and otherwise a US one with a five-character code
    ending in [X]. *)
Theorem detect_answers :
  forall (code_raw : string) (c : country) (t : itype) (s : string),
    detect_country_and_type code_raw = (c, t, s) ->
    (t = ETF ->
     c = India /\ Str.endswith s "BEES" = true /\
     Str.startswith s "NSE:" = false /\ Str.startswith s "BSE:" = false) /\
    (c = US -> t <> ETF) /\
    (t = MutualFund ->
     (c = India /\ Str.startswith s "INF" = true) \/
     (c = US /\ Str.startswith s "INF" = false /\
      String.length s = 5%nat /\ Str.endswith s "X" = true)).
Proof.
  intros code_raw c t s H. rewrite detect_country_and_type_cases in H.
  cbv zeta in H. fold (normalise code_raw) in H.
  destruct (Str.startswith (normalise code_raw) "INF") eqn:E1.
  { injection H as <- <- <-. repeat split; try discriminate. intros _. now left. }
  destruct ((String.length (normalise code_raw) =? 5)%nat
            && Str.endswith (normalise code_raw) "X") eqn:E2.
  { injection H as <- <- <-. apply andb_true_iff in E2. destruct E2 as [L X].
    apply Nat.eqb_eq in L.
    repeat split; try discriminate. intros _. right. auto. }
  destruct (Str.startswith (normalise code_raw) "NSE:" || Str.startswith (normalise code_raw) "BSE:") eqn:E3.
  { injection H as <- <- <-. repeat split; discriminate. }
  apply orb_false_iff in E3. destruct E3 as [N B].
  destruct (Str.endswith (normalise code_raw) "BEES") eqn:E4;
    injection H as <- <- <-; repeat split; try discriminate; auto.
Qed.

Lemma detect_answers_witness :
  India = India /\ Str.endswith "NIFTYBEES" "BEES" = true /\
  Str.startswith "NIFTYBEES" "NSE:" = false /\ Str.startswith "NIFTYBEES" "BSE:" = false.
Proof.
  exact (proj1 (detect_answers " niftybees" India ETF "NIFTYBEES" eq_refl) eq_refl).
Defined.

(* ===================================================================== *)
(** ** Further properties: data fetch *)
(* ===================================================================== *)

Lemma fetch_for_is_fetch_yahoo (provider : string -> yahoo) (code : string)
      (c : country) (t : itype) :
  exists ticker, fetch_for provider code c t = fetch_yahoo provider ticker.
Proof.
  unfold fetch_for. destruct c.
  - eexists. reflexivity.
  - destruct (isnan _); eexists; reflexivity.
Qed.

Lemma score_stock_of_fetched (y : yahoo) (c : country) (tkr : string) :
  exists r, score_stock c tkr (bundle (fetch_yahoo_of y)) = Returns r.
Proof. unfold score_stock, fetch_yahoo_of. cbn [bundle r_1y r_3y]. eexists. reflexivity. Qed.

(** X24.  The bundle of a fetch always carries both returns as floats
    (not-a-number when the history is too short), never [None]; so
    [score_stock] never raises on a fetched bundle, whatever the provider
    answers. *)
Theorem score_stock_after_fetch_returns :
  forall (provider : string -> yahoo) (code : string) (c : country) (t : itype)
         (c' : country) (tkr : string),
    (exists a b,
       r_1y (bundle (fetch_for provider code c t)) = Some a /\
       r_3y (bundle (fetch_for provider code c t)) = Some b) /\
    exists r, score_stock c' tkr (bundle (fetch_for provider code c t)) = Returns r.
Proof.
  intros provider code c t c' tkr.
  destruct (fetch_for_is_fetch_yahoo provider code c t) as [ticker ->].
  unfold fetch_yahoo. split.
  - unfold fetch_yahoo_of. cbn [bundle r_1y r_3y]. eauto.
  - apply score_stock_of_fetched.
Qed.

(** X25.  A history of at most 252 closes leaves the 1-year return
    not-a-number; the growth score of the fetched bundle is then 5 plus
    five times the 3-year return, clamped, and undefined when the history
    is empty. *)
Theorem short_history_growth :
  forall y : yahoo,
    (List.length (close y) <= 252)%nat ->
    r_1y (bundle (fetch_yahoo_of y)) = Some NaN /\
    exists r3,
      r_3y (bundle (fetch_yahoo_of y)) = Some r3 /\
      (close y = [] -> r3 = NaN) /\
      feq (score_growth (bundle (fetch_yahoo_of y)))
          match r3 with
          | NaN => NaN
          | Fin v => Fin (clamp (5 + v * 5))
          end.
Proof.
  intros y Hlen. unfold fetch_yahoo_of, score_growth. cbn [bundle r_1y r_3y].
  assert (E1 : fst (history_returns (close y)) = NaN).
  { unfold history_returns. destruct (close y) as [|first rest]; [reflexivity|].
    cbn [fst]. destruct (Nat.ltb_spec 252 (List.length (first :: rest))); [lia | reflexivity]. }
  rewrite E1. split; [reflexivity|].
  exists (snd (history_returns (close y))). split; [reflexivity|]. split.
  - intros ->. reflexivity.
  - destruct (snd (history_returns (close y))) as [|v]; [exact I|].
    unfold or_else. rewrite truthy_fin.
    destruct (qtruthy_spec v) as [Hv | Hv]; apply zclip_fin_eq;
      unfold qsum; simpl; field_simplify_eq; lra.
Qed.

Lemma short_history_growth_witness :
  r_1y (bundle (fetch_yahoo_of (example_provider ""))) = Some NaN /\
  exists r3,
    r_3y (bundle (fetch_yahoo_of (example_provider ""))) = Some r3 /\
    (close (example_provider "") = [] -> r3 = NaN) /\
    feq (score_growth (bundle (fetch_yahoo_of (example_provider ""))))
        match r3 with
        | NaN => NaN
        | Fin v => Fin (clamp (5 + v * 5))
        end.
Proof.
  apply (short_history_growth (example_provider "")). simpl. lia.
Defined.

Lemma prefix_chars (p s : string) (x : ascii) :
  String.prefix p s = true ->
  In x (list_ascii_of_string p) -> In x (list_ascii_of_string s).
Proof.
  revert s. induction p as [|a p IH]; intros s Hp Hin; [destruct Hin|].
  destruct s as [|b s]; simpl in Hp; [discriminate|].
  destruct (ascii_dec a b) as [-> | _]; [|discriminate].
  simpl in *. destruct Hin as [-> | Hin]; [now left | right; now apply IH].
Qed.

Lemma remove_no_colon (old s : string) :
  In ":"%char (list_ascii_of_string old) -> no_colon s -> remove s old = s.
Proof.
  intros Hold. unfold remove, no_colon.
  induction s as [|c s IH]; intros Hs; [reflexivity|].
  cbn [remove_from].
  destruct (String.prefix old (String c s)) eqn:E.
  - exfalso. apply Hs. exact (prefix_chars _ _ _ E Hold).
  - f_equal. apply IH. intros Hin. apply Hs. simpl. now right.
Qed.

(** X26.  Which symbols [fetch_for] asks the provider for.  A US code is
    looked up as it is.  An India code without a colon after its exchange
    prefix is looked up without the prefix: first with the suffix [.NS],
    and with the suffix [.BO] only when the first answer has no price.
    This holds for the prefix [NSE:], for the prefix [BSE:] (so a BSE code
    is tried on [.NS] first) and for a code without prefix. *)
Theorem fetch_for_symbols :
  forall (provider : string -> yahoo) (code : string) (t : itype),
    fetch_for provider code US t = fetch_yahoo provider code /\
    (no_colon code ->
     fetch_for provider ("NSE:" ++ code) India t
       = first_priced provider (code ++ ".NS") (code ++ ".BO") /\
     fetch_for provider ("BSE:" ++ code) India t
       = first_priced provider (code ++ ".NS") (code ++ ".BO") /\
     fetch_for provider code India t
       = first_priced provider (code ++ ".NS") (code ++ ".BO")).
Proof.
  intros provider code t. split; [reflexivity|]. intros Hc.
  assert (HN : remove code "NSE:" = code) by (apply remove_no_colon; simpl; tauto).
  assert (HB : remove code "BSE:" = code) by (apply remove_no_colon; simpl; tauto).
  assert (E1 : remove ("NSE:" ++ code) "NSE:" = code).
  { unfold remove in *. cbn. destruct code; [reflexivity | exact HN]. }
  assert (E2 : remove (remove ("BSE:" ++ code) "NSE:") "BSE:" = code).
  { assert (E : remove ("BSE:" ++ code) "NSE:" = ("BSE:" ++ code)%string).
    { unfold remove in *. cbn. now rewrite HN. }
    rewrite E. unfold remove in *. cbn. destruct code; [reflexivity | exact HB]. }
  unfold fetch_for, first_priced. rewrite E1, E2, HN, HB. auto.
Qed.

Lemma fetch_for_symbols_witness :
  fetch_for example_provider "BSE:RELIANCE" India Stock
  = first_priced example_provider "RELIANCE.NS" "RELIANCE.BO".
Proof.
  refine (proj1 (proj2 (proj2 (fetch_for_symbols example_provider "RELIANCE" Stock) _))).
  unfold no_colon. simpl. intros H. repeat (destruct H as [H | H]; [discriminate|]). exact H.
Defined.

(* ===================================================================== *)
(** ** Further properties: the page *)
(* ===================================================================== *)

Lemma table_rows_weights (r : stock_rating) :
  List.length (table_rows r) = 8%nat /\
  Forall (fun row => exists w, snd (fst (fst row)) = Some w /\ w == 0.125)
         (table_rows r).
Proof.
  split; [reflexivity|]. unfold table_rows.
  repeat constructor; cbn [fst snd]; eexists; (split; [reflexivity | vm_compute; reflexivity]).
Qed.

Lemma sector_or_default_nonempty (m : metrics) : sector_or_default m <> ""%string.
Proof.
  unfold sector_or_default. destruct (sector m) as [s|]; [|discriminate].
  destruct (String.eqb_spec s ""); [discriminate | assumption].
Qed.

(** X27.  The page for a code detected as a stock whose fetch has a
    price: it never raises; it shows the detection, the overall score with
    the recommendation [reco] gives it for the two sliders, the sector
    (never the placeholder [n/a]), the table and the key metrics, and
    finishes.  The table has eight rows and shows the nominal weight 0.125
    on every row, also for a factor whose sub-score is undefined. *)
Theorem page_rates_stock :
  forall (provider : string -> yahoo) (us_ticker in_ticker mf_code : string)
         (buy_thr hold_thr : pyfloat) (query code : string) (c : country),
    pick_query [us_ticker; in_ticker; mf_code] = Some query ->
    detect_country_and_type query = (c, Stock, code) ->
    isnan (price (fetch_for provider code c Stock)) = false ->
    exists r,
      score_stock c code (bundle (fetch_for provider code c Stock)) = Returns r /\
      page provider us_ticker in_ticker mf_code buy_thr hold_thr
      = ([ Detected c Stock code;
           OverallLine (overall r) (reco (overall r) buy_thr hold_thr);
           SectorLine (rated_sector r);
           FactorTable (table_rows r);
           KeyMetrics (fetch_for provider code c Stock) ], Finished) /\
      List.length (table_rows r) = 8%nat /\
      Forall (fun row => exists w, snd (fst (fst row)) = Some w /\ w == 0.125)
             (table_rows r).
Proof.
  intros provider us inn mf b h query code c Hq Hd Hp.
  destruct (fetch_for_is_fetch_yahoo provider code c Stock) as [ticker Ef].
  destruct (score_stock_of_fetched (provider ticker) c code) as [r Hr].
  exists r. unfold page. rewrite Hq, Hd, Hp. rewrite Ef in *. unfold fetch_yahoo in *.
  rewrite Hr. split; [reflexivity|]. split; [|apply table_rows_weights].
  assert (Hs : rated_sector r <> ""%string).
  { unfold score_stock in Hr.
    destruct (r_1y _); [destruct (r_3y _)|]; try discriminate.
    injection Hr as <-. apply sector_or_default_nonempty. }
  destruct (String.eqb_spec (rated_sector r) ""); [contradiction | reflexivity].
Qed.

Lemma page_rates_stock_witness :
  exists r,
    score_stock India "NSE:INFY" (bundle (fetch_for example_provider "NSE:INFY" India Stock))
      = Returns r /\
    page example_provider "" " nse:infy " "" (Fin 8) (Fin 6)
    = ([ Detected India Stock "NSE:INFY";
         OverallLine (overall r) (reco (overall r) (Fin 8) (Fin 6));
         SectorLine (rated_sector r);
         FactorTable (table_rows r);
         KeyMetrics (fetch_for example_provider "NSE:INFY" India Stock) ], Finished) /\
    List.length (table_rows r) = 8%nat /\
    Forall (fun row => exists w, snd (fst (fst row)) = Some w /\ w == 0.125)
           (table_rows r).
Proof.
  exact (page_rates_stock example_provider "" " nse:infy " "" (Fin 8) (Fin 6)
           "nse:infy" "NSE:INFY" India eq_refl eq_refl eq_refl).
Defined.

(** X28.  The page ends with [NameError] exactly when a query is given,
    its fetch has a price and it is detected as an ETF or a mutual fund:
    the page then shows the detection and the not-implemented notice, and
    no table.  It never ends with [TypeError]. *)
Theorem page_name_error :
  forall (provider : string -> yahoo) (us_ticker in_ticker mf_code : string)
         (buy_thr hold_thr : pyfloat),
    (snd (page provider us_ticker in_ticker mf_code buy_thr hold_thr) = NameError <->
     exists query c t code,
       pick_query [us_ticker; in_ticker; mf_code] = Some query /\
       detect_country_and_type query = (c, t, code) /\
       isnan (price (fetch_for provider code c t)) = false /\
       t <> Stock /\
       fst (page provider us_ticker in_ticker mf_code buy_thr hold_thr)
       = [Detected c t code; NotImplemented]) /\
    snd (page provider us_ticker in_ticker mf_code buy_thr hold_thr) <> TypeError.
Proof.
  intros provider us inn mf b h. unfold page.
  destruct (pick_query [us; inn; mf]) as [query|].
  2:{ split; [split; [discriminate | intros (q & c & t & code & H & _); discriminate]
             | discriminate]. }
  destruct (detect_country_and_type query) as [[c t] code] eqn:Hd.
  destruct (isnan (price (fetch_for provider code c t))) eqn:Hp.
  { split; [split; [discriminate|] | discriminate].
    intros (q & c' & t' & code' & Hq & Hd' & Hp' & _).
    injection Hq as <-. rewrite Hd in Hd'. injection Hd' as <- <- <-. congruence. }
  destruct t.
  - destruct (fetch_for_is_fetch_yahoo provider code c Stock) as [ticker Ef].
    destruct (score_stock_of_fetched (provider ticker) c code) as [r Hr].
    rewrite Ef. unfold fetch_yahoo. rewrite Hr.
    split; [split; [discriminate|] | discriminate].
    intros (q & c' & t' & code' & Hq & Hd' & _ & Ht & _).
    injection Hq as <-. rewrite Hd in Hd'. injection Hd' as <- <- <-. congruence.
  - split; [split | discriminate].
    + intros _. exists query, c, ETF, code. repeat split; try assumption; discriminate.
    + reflexivity.
  - split; [split | discriminate].
    + intros _. exists query, c, MutualFund, code. repeat split; try assumption; discriminate.
    + reflexivity.
Qed.

Lemma page_name_error_witness :
  snd (page example_provider "" "" "vfiax" (Fin 8) (Fin 6)) = NameError.
Proof.
  apply (proj1 (page_name_error example_provider "" "" "vfiax" (Fin 8) (Fin 6))).
  exists "vfiax"%string, US, MutualFund, "VFIAX"%string.
  repeat split; discriminate.
Defined.

Lemma pick_query_nonblank (s : string) (rest : list string) :
  String.length (Str.strip s) <> 0%nat ->
  pick_query (s :: rest) = Some (Str.strip s).
Proof.
  intros H. cbn [pick_query].
  destruct (Nat.eqb_spec (String.length (Str.strip s)) 0); [contradiction | reflexivity].
Qed.

Lemma pick_query_blank (s : string) (rest : list string) :
  String.length (Str.strip s) = 0%nat ->
  pick_query (s :: rest) = pick_query rest.
Proof. intros H. cbn [pick_query]. now rewrite H. Qed.

(** X29.  Which input the page uses: the first of the three that is not
    blank, in the order US ticker, India ticker, mutual fund code, and
    what is typed in the later ones is ignored; the query is stripped and
    never blank; with all three blank the page only asks for an input. *)
Theorem page_query_selection :
  forall (provider : string -> yahoo) (us_ticker in_ticker mf_code : string)
         (buy_thr hold_thr : pyfloat),
    (String.length (Str.strip us_ticker) <> 0%nat ->
     page provider us_ticker in_ticker mf_code buy_thr hold_thr
     = page provider us_ticker "" "" buy_thr hold_thr) /\
    (String.length (Str.strip us_ticker) = 0%nat ->
     String.length (Str.strip in_ticker) <> 0%nat ->
     page provider us_ticker in_ticker mf_code buy_thr hold_thr
     = page provider "" in_ticker "" buy_thr hold_thr) /\
    (String.length (Str.strip us_ticker) = 0%nat ->
     String.length (Str.strip in_ticker) = 0%nat ->
     String.length (Str.strip mf_code) = 0%nat ->
     page provider us_ticker in_ticker mf_code buy_thr hold_thr
     = ([EnterInput], Finished)) /\
    (forall query,
       pick_query [us_ticker; in_ticker; mf_code] = Some query ->
       Str.strip query = query /\ String.length query <> 0%nat).
Proof.
  intros provider us inn mf b h. repeat split.
  - intros H. unfold page. now rewrite !(pick_query_nonblank us) by exact H.
  - intros H1 H2. unfold page.
    rewrite (pick_query_blank us) by exact H1.
    rewrite (pick_query_nonblank inn) by exact H2.
    rewrite (pick_query_blank "") by reflexivity.
    now rewrite (pick_query_nonblank inn) by exact H2.
  - intros H1 H2 H3. unfold page.
    rewrite (pick_query_blank us), (pick_query_blank inn), (pick_query_blank mf)
      by assumption.
    reflexivity.
  - revert H. cbn [pick_query].
    repeat match goal with
           | |- context [(String.length (Str.strip ?s) =? 0)%nat] =>
               destruct (Nat.eqb_spec (String.length (Str.strip s)) 0)
           end; intros [= <-]; apply strip_idempotent.
  - revert H. cbn [pick_query].
    repeat match goal with
           | |- context [(String.length (Str.strip ?s) =? 0)%nat] =>
               destruct (Nat.eqb_spec (String.length (Str.strip s)) 0)
           end; intros [= <-]; assumption.
Qed.

Lemma page_query_selection_witness :
  page example_provider "aapl" "nse:infy" "vfiax" (Fin 8) (Fin 6)
  = page example_provider "aapl" "" "" (Fin 8) (Fin 6).
Proof.
  apply (proj1 (page_query_selection example_provider "aapl" "nse:infy" "vfiax"
                  (Fin 8) (Fin 6))).
  discriminate.
Defined.
